(** * The docker load balancer helper of cluster-api-provider-docker

    A shallow embedding of [pkg/docker/loadbalancer.go]: the [LoadBalancer]
    value, its constructor [NewLoadBalancer] and its four operations
    [Create], [UpdateConfiguration], [IP] and [Delete].

    The container runtime is an external collaborator.  Every call that
    leaves the file (listing containers, creating the load balancer node,
    reading a node's address, rendering the configuration, writing a file,
    sending a signal, deleting a node) is recorded, with its arguments and
    its answer, in a trace of events; the answers come from a [Runtime]
    record whose fields may depend on everything that happened before.
    The context argument [ctx] and the logger are not modelled. *)

From stdpp Require Import base option list strings gmap.

Open Scope string_scope.
Open Scope list_scope.

(** ** Errors of [github.com/pkg/errors] *)

(** [foreign] is an error value built outside [pkg/errors]; [fundamental]
    is what [errors.New] and [errors.Errorf] build; [withStack] and
    [withMessage] are the two wrappers. *)
Inductive Error : Type :=
| foreign (msg : string)
| fundamental (msg : string)
| withStack (err : Error)
| withMessage (err : Error) (msg : string).

(** Go's [error] interface value: [None] is [nil]. *)
Abbreviation error := (option Error).

Definition errors_New (msg : string) : error := Some (fundamental msg).

(** [errors.WithStack] returns nil for a nil argument. *)
Definition errors_WithStack (err : error) : error :=
  match err with
  | None => None
  | Some e => Some (withStack e)
  end.

(** [errors.Wrapf] returns nil for a nil argument; otherwise it annotates
    the error with the message and then with a stack. *)
Definition errors_Wrapf (err : error) (msg : string) : error :=
  match err with
  | None => None
  | Some e => Some (withStack (withMessage e msg))
  end.

(** The [Error()] method. *)
Fixpoint Error_text (e : Error) : string :=
  match e with
  | foreign msg => msg
  | fundamental msg => msg
  | withStack e' => Error_text e'
  | withMessage e' msg => msg +:+ ": " +:+ Error_text e'
  end.

(** [errors.Cause]: the innermost error. *)
Fixpoint Cause (e : Error) : Error :=
  match e with
  | foreign msg => foreign msg
  | fundamental msg => fundamental msg
  | withStack e' => Cause e'
  | withMessage e' _ => Cause e'
  end.

(** ** Strings: [net.JoinHostPort] *)

(** [bytealg.IndexByteString]: index of the first [c] in [s], or -1. *)
Fixpoint IndexByteString (s : string) (c : Ascii.ascii) : Z :=
  match s with
  | EmptyString => (-1)%Z
  | String a rest =>
      if Ascii.eqb a c then 0%Z
      else let i := IndexByteString rest c in
           if (i <? 0)%Z then (-1)%Z else (i + 1)%Z
  end.

(** A host with a colon is taken to be a literal IPv6 address. *)
Definition JoinHostPort (host port : string) : string :=
  if (0 <=? IndexByteString host (Ascii.ascii_of_nat 58))%Z
  then "[" +:+ host +:+ "]:" +:+ port
  else host +:+ ":" +:+ port.

(** ** Data of the collaborating packages *)

(** Modelled from the spec: [types.Node] is declared in [pkg/docker/types],
    which is not among the sources; an execution unit is known by its name,
    its role and its image, and [String] gives its name. *)
Record Node : Type := mkNode {
  Node_Name : string;
  Node_ClusterRole : string;
  Node_Image : string
}.

#[global] Instance Node_eq_dec : EqDecision Node.
Proof. solve_decision. Defined.

Definition Node_String (n : Node) : string := Node_Name n.

(** [container.FilterBuilder] after a sequence of [AddKeyNameValue] calls:
    the (key, name, value) triples in the order they were added. *)
Definition FilterBuilder : Type := list (string * string * string).

Definition AddKeyNameValue (filters : FilterBuilder) (key name value : string)
  : FilterBuilder :=
  filters ++ [(key, name, value)].

(** Modelled from the spec: the label constants of package [docker] are
    declared outside the sources; they name the filter kind, the cluster
    label and the role label. *)
Definition filterLabel : string := "label".
Definition clusterLabelKey : string := "io.x-k8s.kind.cluster".
Definition nodeRoleLabelKey : string := "io.x-k8s.kind.role".

(** Role values of [sigs.k8s.io/kind/pkg/cluster/constants]. *)
Definition ControlPlaneNodeRoleValue : string := "control-plane".
Definition ExternalLoadBalancerNodeRoleValue : string := "external-load-balancer".

(** [loadbalancer.ConfigData]. *)
Record ConfigData : Type := mkConfigData {
  ControlPlanePort : Z;
  BackendServers : gmap string string;
  EnableStats : bool
}.

(** What [loadbalancer.go] uses of package [pkg/loadbalancer]: three image
    constants, the configuration path and the renderer [Config], a pure
    function from the data to the document or an error. *)
Record LoadBalancerPkg : Type := mkLoadBalancerPkg {
  Image : string;
  DefaultImageRepository : string;
  DefaultImageTag : string;
  ConfigPath : string;
  Config : ConfigData → string * error
}.

(** [clusterv1.Cluster] and [infrav1.DockerCluster], as far as they are read. *)
Record Cluster : Type := mkCluster { Cluster_Name : string }.
Record DockerCluster : Type := mkDockerCluster { Spec_LoadBalancerImage : string }.

(** ** Events and the runtime *)

Inductive Event : Type :=
| EvGetContainer (filters : FilterBuilder) (res : option Node * error)
| EvListContainers (filters : FilterBuilder) (res : list Node * error)
| EvCreateExternalLoadBalancerNode
    (name image clusterName listenAddress : string) (port : Z)
    (res : option Node * error)
| EvNodeIP (n : Node) (res : string * error)
| EvConfig (data : ConfigData) (res : string * error)
| EvWriteFile (n : Node) (dest content : string) (res : error)
| EvKill (n : Node) (signal : string) (res : error)
| EvDelete (n : Node) (res : error).

Definition Trace : Type := list Event.

(** The [lbCreator] interface: one method.  Its answer is Go's pair of a
    node pointer and an error; the first argument is the history. *)
Definition lbCreator : Type :=
  Trace → string → string → string → string → Z → option Node * error.

(** The answers of the container runtime, each a function of the history
    of events so far and of the call's arguments. *)
Record Runtime : Type := mkRuntime {
  getContainer : Trace → FilterBuilder → option Node * error;
  listContainers : Trace → FilterBuilder → list Node * error;
  Manager_CreateExternalLoadBalancerNode : lbCreator;
  Node_IP : Trace → Node → string * error;
  Node_WriteFile : Trace → Node → string → string → error;
  Node_Kill : Trace → Node → string → error;
  Node_Delete : Trace → Node → error
}.

(** ** The monad of traced calls *)

(** A computation reads the history and yields a value and the events it
    emitted, oldest first. *)
Definition M (A : Type) : Type := Trace → A * Trace.

Definition ret {A} (a : A) : M A := λ _, (a, []).

Definition bind {A B} (m : M A) (f : A → M B) : M B :=
  λ h, let '(a, e1) := m h in
       let '(b, e2) := f a (h ++ e1) in
       (b, e1 ++ e2).

(** One call to a collaborator: ask, and log the question with the answer. *)
Definition perform {A} (respond : Trace → A) (ev : A → Event) : M A :=
  λ h, let a := respond h in (a, [ev a]).

Notation "'call' x ':=' m 'in' f" := (bind m (λ x, f))
  (at level 10, x pattern, m at level 100, f at level 200).

(** The outcome of a Go call that may dereference a nil pointer. *)
Inductive outcome (A : Type) : Type :=
| Returned (a : A)
| Panicked (msg : string).
Arguments Returned {A} a.
Arguments Panicked {A} msg.

Definition nil_pointer_dereference : string :=
  "runtime error: invalid memory address or nil pointer dereference".

(** The number of creation requests in a trace. *)
Definition is_create (ev : Event) : bool :=
  match ev with
  | EvCreateExternalLoadBalancerNode _ _ _ _ _ _ => true
  | _ => false
  end.

Definition creation_requests (t : Trace) : nat := length (List.filter is_create t).

Definition is_render_write_or_signal (ev : Event) : bool :=
  match ev with
  | EvConfig _ _ | EvWriteFile _ _ _ _ | EvKill _ _ _ => true
  | _ => false
  end.

Definition is_signal (ev : Event) : bool :=
  match ev with
  | EvKill _ _ _ => true
  | _ => false
  end.

(** ** The load balancer *)

(** The struct [LoadBalancer].  [container] is the pointer to the node,
    [None] for nil; [creator] is the field [lbCreator], which shares its
    name with the interface in the source. *)
Record LoadBalancer : Type := mkLoadBalancer {
  name : string;
  image : string;
  container : option Node;
  creator : lbCreator
}.

Section LoadBalancer.

Variable pkg : LoadBalancerPkg.
Variable rt : Runtime.

(** [getLoadBalancerImage]: a non-default image of the docker cluster
    wins over "repository/image:tag". *)
Definition getLoadBalancerImage (dockerCluster : option DockerCluster) : string :=
  let image := Image pkg in
  let imageRepo := DefaultImageRepository pkg in
  let imageTag := DefaultImageTag pkg in
  match dockerCluster with
  | Some dc =>
      if decide (Spec_LoadBalancerImage dc ≠ "")
      then Spec_LoadBalancerImage dc
      else imageRepo +:+ "/" +:+ image +:+ ":" +:+ imageTag
  | None => imageRepo +:+ "/" +:+ image +:+ ":" +:+ imageTag
  end.

(** [NewLoadBalancer]: looks the hosting container up, creates nothing. *)
Definition NewLoadBalancer (cluster : Cluster) (dockerCluster : option DockerCluster)
  : M (option LoadBalancer * error) :=
  if decide (Cluster_Name cluster = "")
  then ret (None, errors_New "create load balancer: cluster name is empty")
  else
    let filters := [] in
    let filters := AddKeyNameValue filters filterLabel clusterLabelKey (Cluster_Name cluster) in
    let filters := AddKeyNameValue filters filterLabel nodeRoleLabelKey
                     ExternalLoadBalancerNodeRoleValue in
    call (container, err) := perform (λ h, getContainer rt h filters) (EvGetContainer filters) in
    match err with
    | Some e => ret (None, Some e)
    | None =>
        let image := getLoadBalancerImage dockerCluster in
        ret (Some {| name := Cluster_Name cluster;
                     image := image;
                     container := container;
                     creator := Manager_CreateExternalLoadBalancerNode rt |},
             None)
    end.

Definition containerName (s : LoadBalancer) : string := name s +:+ "-lb".

(** [Create]: the assignment to [s.container] happens before the error
    is looked at, so the instance holds whatever node the creator gave. *)
Definition Create (s : LoadBalancer) : M (LoadBalancer * error) :=
  let listenAddr := "0.0.0.0" in
  match container s with
  | None =>
      call (node, err) :=
        perform (λ h, creator s h (containerName s) (image s) (name s) listenAddr 0%Z)
                (EvCreateExternalLoadBalancerNode
                   (containerName s) (image s) (name s) listenAddr 0%Z) in
      let s := {| name := name s; image := image s;
                  container := node; creator := creator s |} in
      match err with
      | Some e => ret (s, errors_WithStack (Some e))
      | None => ret (s, None)
      end
  | Some _ => ret (s, None)
  end.

(** The loop over the control plane nodes; it returns at the first
    address that cannot be read. *)
Fixpoint collectBackendServers (nodes : list Node) (backendServers : gmap string string)
  : M (gmap string string * error) :=
  match nodes with
  | [] => ret (backendServers, None)
  | n :: rest =>
      call (controlPlaneIPv4, err) := perform (λ h, Node_IP rt h n) (EvNodeIP n) in
      match err with
      | Some e =>
          ret (backendServers,
               errors_Wrapf (Some e) ("failed to get IP for container " +:+ Node_String n))
      | None =>
          collectBackendServers rest
            (<[Node_String n := JoinHostPort controlPlaneIPv4 "6443"]> backendServers)
      end
  end.

Definition controlPlaneFilters (s : LoadBalancer) : FilterBuilder :=
  let filters := [] in
  let filters := AddKeyNameValue filters filterLabel clusterLabelKey (name s) in
  AddKeyNameValue filters filterLabel nodeRoleLabelKey ControlPlaneNodeRoleValue.

Definition configData (backendServers : gmap string string) : ConfigData :=
  {| ControlPlanePort := 6443;
     BackendServers := backendServers;
     EnableStats := true |}.

(** [UpdateConfiguration]. *)
Definition UpdateConfiguration (s : LoadBalancer) : M error :=
  match container s with
  | None =>
      ret (errors_New
        "unable to configure load balancer: load balancer container does not exists")
  | Some c =>
      let filters := controlPlaneFilters s in
      call (controlPlaneNodes, err) :=
        perform (λ h, listContainers rt h filters) (EvListContainers filters) in
      match err with
      | Some e => ret (errors_WithStack (Some e))
      | None =>
          call (backendServers, err) := collectBackendServers controlPlaneNodes ∅ in
          match err with
          | Some e => ret (Some e)
          | None =>
              let data := configData backendServers in
              call (loadBalancerConfig, err) :=
                perform (λ _, Config pkg data) (EvConfig data) in
              match err with
              | Some e => ret (errors_WithStack (Some e))
              | None =>
                  call err :=
                    perform (λ h, Node_WriteFile rt h c (ConfigPath pkg) loadBalancerConfig)
                            (EvWriteFile c (ConfigPath pkg) loadBalancerConfig) in
                  match err with
                  | Some e => ret (errors_WithStack (Some e))
                  | None =>
                      call err := perform (λ h, Node_Kill rt h c "SIGHUP")
                                          (EvKill c "SIGHUP") in
                      ret (errors_WithStack err)
                  end
              end
          end
      end
  end.

(** [IP] calls [s.container.IP] without looking at [s.container].  The
    methods of [types.Node] act on the container that the receiver names,
    so the call on a nil container is modelled as Go's nil pointer
    dereference, a run-time panic. *)
Definition IP (s : LoadBalancer) : M (outcome (string * error)) :=
  match container s with
  | None => ret (Panicked nil_pointer_dereference)
  | Some c =>
      call (lbIP, err) := perform (λ h, Node_IP rt h c) (EvNodeIP c) in
      match err with
      | Some e => ret (Returned ("", errors_WithStack (Some e)))
      | None =>
          if decide (lbIP = "")
          then ret (Returned ("", Some (fundamental
                 ("load balancer IP cannot be empty: container " +:+ containerName s
                  +:+ " does not have an associated IP address"))))
          else ret (Returned (lbIP, None))
      end
  end.

(** [Delete]: the handle is dropped after the runtime deleted the node. *)
Definition Delete (s : LoadBalancer) : M (LoadBalancer * error) :=
  match container s with
  | Some c =>
      call err := perform (λ h, Node_Delete rt h c) (EvDelete c) in
      match err with
      | Some e => ret (s, Some e)
      | None =>
          ret ({| name := name s; image := image s;
                  container := None; creator := creator s |}, None)
      end
  | None => ret (s, None)
  end.

End LoadBalancer.

(** ** Vocabulary for the statements *)

(** The events of a run of the loop in which every address was read. *)
Definition resolutions (nodes : list Node) (ips : list string) : Trace :=
  zip_with (λ n ip, EvNodeIP n (ip, None)) nodes ips.

(** The backend servers after the loop has run over [nodes] with the
    addresses [ips], starting from [acc]: each node's name is bound to its
    address joined with port 6443, a later node replacing an earlier one
    of the same name. *)
Definition backendServersFrom (acc : gmap string string)
    (nodes : list Node) (ips : list string) : gmap string string :=
  foldl (λ m p, <[Node_String p.1 := JoinHostPort p.2 "6443"]> m) acc (zip nodes ips).

Definition backendSet (nodes : list Node) (ips : list string) : gmap string string :=
  backendServersFrom ∅ nodes ips.

(** The two ways the loop over the nodes can end, with the events of each:
    every address was read, or the node after the first [length ips] ones
    could not be resolved. *)
Inductive loop_outcome (nodes : list Node) (acc : gmap string string)
  : gmap string string * error → Trace → Prop :=
| loop_done ips :
    length ips = length nodes →
    loop_outcome nodes acc
      (backendServersFrom acc nodes ips, None) (resolutions nodes ips)
| loop_failed ips n ip e m :
    length ips < length nodes →
    nodes !! length ips = Some n →
    loop_outcome nodes acc
      (m, Some (withStack (withMessage e
             ("failed to get IP for container " +:+ Node_String n))))
      (resolutions nodes ips ++ [EvNodeIP n (ip, Some e)]).

(** The six ways a run of [UpdateConfiguration] can end, each with the
    error it returns and the events it leaves. *)
Inductive update_outcome (pkg : LoadBalancerPkg) (s : LoadBalancer)
  : error → Trace → Prop :=
| update_absent :
    container s = None →
    update_outcome pkg s
      (Some (fundamental
         "unable to configure load balancer: load balancer container does not exists"))
      []
| update_list_failed c nodes e :
    container s = Some c →
    update_outcome pkg s (Some (withStack e))
      [EvListContainers (controlPlaneFilters s) (nodes, Some e)]
| update_resolution_failed c nodes ips n ip e :
    container s = Some c →
    length ips < length nodes →
    nodes !! length ips = Some n →
    update_outcome pkg s
      (Some (withStack (withMessage e
             ("failed to get IP for container " +:+ Node_String n))))
      (EvListContainers (controlPlaneFilters s) (nodes, None)
       :: resolutions nodes ips ++ [EvNodeIP n (ip, Some e)])
| update_render_failed c nodes ips doc e :
    container s = Some c →
    length ips = length nodes →
    Config pkg (configData (backendSet nodes ips)) = (doc, Some e) →
    update_outcome pkg s (Some (withStack e))
      (EvListContainers (controlPlaneFilters s) (nodes, None)
       :: resolutions nodes ips
       ++ [EvConfig (configData (backendSet nodes ips)) (doc, Some e)])
| update_write_failed c nodes ips doc e :
    container s = Some c →
    length ips = length nodes →
    Config pkg (configData (backendSet nodes ips)) = (doc, None) →
    update_outcome pkg s (Some (withStack e))
      (EvListContainers (controlPlaneFilters s) (nodes, None)
       :: resolutions nodes ips
       ++ [EvConfig (configData (backendSet nodes ips)) (doc, None);
           EvWriteFile c (ConfigPath pkg) doc (Some e)])
| update_signalled c nodes ips doc res :
    container s = Some c →
    length ips = length nodes →
    Config pkg (configData (backendSet nodes ips)) = (doc, None) →
    update_outcome pkg s (errors_WithStack res)
      (EvListContainers (controlPlaneFilters s) (nodes, None)
       :: resolutions nodes ips
       ++ [EvConfig (configData (backendSet nodes ips)) (doc, None);
           EvWriteFile c (ConfigPath pkg) doc None;
           EvKill c "SIGHUP" res]).

(** The filters of [NewLoadBalancer]. *)
Definition loadBalancerFilters (cluster : Cluster) : FilterBuilder :=
  AddKeyNameValue
    (AddKeyNameValue [] filterLabel clusterLabelKey (Cluster_Name cluster))
    filterLabel nodeRoleLabelKey ExternalLoadBalancerNodeRoleValue.

(** The reconciler's scenario "construct, then create twice". *)
Definition ConstructCreateCreate (pkg : LoadBalancerPkg) (rt : Runtime)
    (cluster : Cluster) (dockerCluster : option DockerCluster)
  : M (option (LoadBalancer * error * error) * error) :=
  call (lb, err) := NewLoadBalancer pkg rt cluster dockerCluster in
  match lb with
  | None => ret (None, err)
  | Some s =>
      call (s1, err1) := Create s in
      call (s2, err2) := Create s1 in
      ret (Some (s2, err1, err2), None)
  end.

(** ** A fake runtime for concrete runs *)

Module Fake.

Definition lb : Node := mkNode "demo-lb" "external-load-balancer" "kindest/haproxy:v1".
Definition cp1 : Node := mkNode "demo-control-plane" "control-plane" "kindest/node:v1".
Definition cp2 : Node := mkNode "demo-control-plane2" "control-plane" "kindest/node:v1".

Definition refused : Error := foreign "docker: connection refused".

(** A renderer that lists the backends, one per line. *)
Definition render (data : ConfigData) : string * error :=
  (map_fold (λ k v acc, acc +:+ "server " +:+ k +:+ " " +:+ v +:+ ";") ""
     (BackendServers data), None).

Definition pkg : LoadBalancerPkg :=
  {| Image := "haproxy";
     DefaultImageRepository := "kindest";
     DefaultImageTag := "v1";
     ConfigPath := "/usr/local/etc/haproxy/haproxy.cfg";
     Config := render |}.

Definition address_of (n : Node) : string :=
  if decide (n = cp1) then "10.0.0.5"
  else if decide (n = cp2) then "10.0.0.6"
  else "10.0.0.2".

(** No load balancer exists yet, two control plane nodes do, and every
    call succeeds. *)
Definition rt : Runtime :=
  {| getContainer := λ _ _, (None, None);
     listContainers := λ _ _, ([cp1; cp2], None);
     Manager_CreateExternalLoadBalancerNode := λ _ _ _ _ _ _, (Some lb, None);
     Node_IP := λ _ n, (address_of n, None);
     Node_WriteFile := λ _ _ _ _, None;
     Node_Kill := λ _ _ _, None;
     Node_Delete := λ _ _, None |}.

Definition with_getContainer (r : Runtime) f : Runtime :=
  {| getContainer := f; listContainers := listContainers r;
     Manager_CreateExternalLoadBalancerNode := Manager_CreateExternalLoadBalancerNode r;
     Node_IP := Node_IP r; Node_WriteFile := Node_WriteFile r;
     Node_Kill := Node_Kill r; Node_Delete := Node_Delete r |}.

Definition with_listContainers (r : Runtime) f : Runtime :=
  {| getContainer := getContainer r; listContainers := f;
     Manager_CreateExternalLoadBalancerNode := Manager_CreateExternalLoadBalancerNode r;
     Node_IP := Node_IP r; Node_WriteFile := Node_WriteFile r;
     Node_Kill := Node_Kill r; Node_Delete := Node_Delete r |}.

Definition with_creator (r : Runtime) f : Runtime :=
  {| getContainer := getContainer r; listContainers := listContainers r;
     Manager_CreateExternalLoadBalancerNode := f;
     Node_IP := Node_IP r; Node_WriteFile := Node_WriteFile r;
     Node_Kill := Node_Kill r; Node_Delete := Node_Delete r |}.

Definition with_IP (r : Runtime) f : Runtime :=
  {| getContainer := getContainer r; listContainers := listContainers r;
     Manager_CreateExternalLoadBalancerNode := Manager_CreateExternalLoadBalancerNode r;
     Node_IP := f; Node_WriteFile := Node_WriteFile r;
     Node_Kill := Node_Kill r; Node_Delete := Node_Delete r |}.

Definition with_WriteFile (r : Runtime) f : Runtime :=
  {| getContainer := getContainer r; listContainers := listContainers r;
     Manager_CreateExternalLoadBalancerNode := Manager_CreateExternalLoadBalancerNode r;
     Node_IP := Node_IP r; Node_WriteFile := f;
     Node_Kill := Node_Kill r; Node_Delete := Node_Delete r |}.

Definition with_Delete (r : Runtime) f : Runtime :=
  {| getContainer := getContainer r; listContainers := listContainers r;
     Manager_CreateExternalLoadBalancerNode := Manager_CreateExternalLoadBalancerNode r;
     Node_IP := Node_IP r; Node_WriteFile := Node_WriteFile r;
     Node_Kill := Node_Kill r; Node_Delete := f |}.

(** The cluster "demo" with the default image. *)
Definition demo : Cluster := mkCluster "demo".

(** The instance for "demo", without and with its container. *)
Definition absent : LoadBalancer :=
  {| name := "demo"; image := "kindest/haproxy:v1"; container := None;
     creator := Manager_CreateExternalLoadBalancerNode rt |}.

Definition provisioned : LoadBalancer :=
  {| name := "demo"; image := "kindest/haproxy:v1"; container := Some lb;
     creator := Manager_CreateExternalLoadBalancerNode rt |}.

(** The runtime in which the address of the second control plane node
    cannot be read. *)
Definition rt_ip_fails : Runtime :=
  with_IP rt (λ _ n, if decide (n = cp2) then ("", Some refused) else (address_of n, None)).

(** The runtime in which the load balancer exists but has no address. *)
Definition rt_no_address : Runtime := with_IP rt (λ _ _, ("", None)).

(** The runtime in which writing a file fails. *)
Definition rt_write_fails : Runtime := with_WriteFile rt (λ _ _ _ _, Some refused).

(** The runtime in which deleting a node fails. *)
Definition rt_delete_fails : Runtime := with_Delete rt (λ _ _, Some refused).

(** The runtime in which the load balancer of the cluster already exists. *)
Definition rt_found : Runtime := with_getContainer rt (λ _ _, (Some lb, None)).

(** The runtime in which creating the load balancer fails. *)
Definition rt_create_fails : Runtime :=
  with_creator rt (λ _ _ _ _ _ _, (None, Some refused)).

(** A creator that fails and still hands out a node. *)
Definition half_creator : lbCreator := λ _ _ _ _ _ _, (Some lb, Some refused).

(** The runtime without control plane nodes. *)
Definition rt_no_nodes : Runtime := with_listContainers rt (λ _ _, ([], None)).

End Fake.

(** ** Further vocabulary *)

(** The error in the answer logged with an event, nil if the call succeeded. *)
Definition event_error (ev : Event) : error :=
  match ev with
  | EvGetContainer _ res => res.2
  | EvListContainers _ res => res.2
  | EvCreateExternalLoadBalancerNode _ _ _ _ _ res => res.2
  | EvNodeIP _ res => res.2
  | EvConfig _ res => res.2
  | EvWriteFile _ _ _ res => res
  | EvKill _ _ res => res
  | EvDelete _ res => res
  end.

(** The calls that look a load balancer up, create one or delete one. *)
Definition is_lifecycle_call (ev : Event) : bool :=
  match ev with
  | EvGetContainer _ _ | EvCreateExternalLoadBalancerNode _ _ _ _ _ _
  | EvDelete _ _ => true
  | _ => false
  end.

(** The calls that change something in the runtime. *)
Definition is_mutation (ev : Event) : bool :=
  match ev with
  | EvCreateExternalLoadBalancerNode _ _ _ _ _ _ | EvWriteFile _ _ _ _
  | EvKill _ _ _ | EvDelete _ _ => true
  | _ => false
  end.

(** The nodes whose address a trace asks for, in the order of asking. *)
Definition resolved_nodes (t : Trace) : list Node :=
  omap (λ ev, match ev with EvNodeIP n _ => Some n | _ => None end) t.

(** A runtime in which the first deletion fails and later ones succeed. *)
Definition rt_delete_fails_once : Runtime :=
  Fake.with_Delete Fake.rt
    (λ h _, if List.existsb (λ ev, match ev with EvDelete _ _ => true | _ => false end) h
            then None else Some Fake.refused).

(** A runtime in which no address can be read. *)
Definition rt_lookup_fails : Runtime :=
  Fake.with_IP Fake.rt (λ _ _, ("", Some Fake.refused)).

(** A runtime in which rendering the configuration succeeds and the signal
    is refused. *)
Definition rt_kill_fails : Runtime :=
  {| getContainer := getContainer Fake.rt;
     listContainers := listContainers Fake.rt;
     Manager_CreateExternalLoadBalancerNode :=
       Manager_CreateExternalLoadBalancerNode Fake.rt;
     Node_IP := Node_IP Fake.rt;
     Node_WriteFile := Node_WriteFile Fake.rt;
     Node_Kill := λ _ _ _, Some Fake.refused;
     Node_Delete := Node_Delete Fake.rt |}.


(** * Properties *)

(** ** The loop over the control plane nodes *)

Section Loop.

Context (rt : Runtime).

Lemma collectBackendServers_cons n rest acc h :
  collectBackendServers rt (n :: rest) acc h =
  match Node_IP rt h n with
  | (ip, Some e) =>
      ((acc, Some (withStack (withMessage e
               ("failed to get IP for container " +:+ Node_String n)))),
       [EvNodeIP n (ip, Some e)])
  | (ip, None) =>
      let '(b, e2) := collectBackendServers rt rest
                        (<[Node_String n := JoinHostPort ip "6443"]> acc)
                        (h ++ [EvNodeIP n (ip, None)]) in
      (b, EvNodeIP n (ip, None) :: e2)
  end.
Proof.
  cbn [collectBackendServers]. unfold bind, perform, ret.
  destruct (Node_IP rt h n) as [ip [e|]]; cbn; [done|].
  by destruct (collectBackendServers _ _ _ _) as [b e2].
Qed.

Lemma collectBackendServers_outcome nodes acc h :
  loop_outcome nodes acc (collectBackendServers rt nodes acc h).1
                         (collectBackendServers rt nodes acc h).2.
Proof.
  revert acc h. induction nodes as [|n rest IH]; intros acc h.
  - cbn. by apply (loop_done [] acc []).
  - rewrite collectBackendServers_cons.
    destruct (Node_IP rt h n) as [ip [e|]]; cbn.
    + by apply (loop_failed (n :: rest) acc [] n ip e acc); cbn; [lia|].
    + specialize (IH (<[Node_String n := JoinHostPort ip "6443"]> acc)
                     (h ++ [EvNodeIP n (ip, None)])).
      destruct (collectBackendServers _ _ _ _) as [b e2]. cbn in *.
      inversion IH as [ips Hlen | ips n' ip' e' m Hlen Hn]; subst.
      * apply (loop_done (n :: rest) acc (ip :: ips)). cbn. lia.
      * apply (loop_failed (n :: rest) acc (ip :: ips) n' ip' e' m);
          cbn; [lia|done].
Qed.

(** A node whose address can never be read makes the loop fail, at that
    node or before it. *)
Lemma collectBackendServers_unresolvable nodes acc h n :
  n ∈ nodes →
  (∀ h', (Node_IP rt h' n).2 ≠ None) →
  (collectBackendServers rt nodes acc h).1.2 ≠ None.
Proof.
  revert acc h. induction nodes as [|n0 rest IH]; intros acc h Hin Hfail.
  - by apply elem_of_nil in Hin.
  - rewrite collectBackendServers_cons.
    destruct (Node_IP rt h n0) as [ip [e|]] eqn:Hip; cbn; [done|].
    apply elem_of_cons in Hin as [->|Hin].
    + specialize (Hfail h). by rewrite Hip in Hfail.
    + specialize (IH (<[Node_String n0 := JoinHostPort ip "6443"]> acc)
                     (h ++ [EvNodeIP n0 (ip, None)]) Hin Hfail).
      by destruct (collectBackendServers _ _ _ _) as [b e2].
Qed.

End Loop.

(** Every event of [resolutions] is a successful address lookup. *)
Lemma resolutions_spec nodes ips ev :
  ev ∈ resolutions nodes ips → ∃ n ip, ev = EvNodeIP n (ip, None).
Proof.
  unfold resolutions. revert ips.
  induction nodes as [|n rest IH]; intros [|ip ips]; cbn; try by inversion 1.
  intros [->|Hin]%elem_of_cons; eauto.
Qed.

Lemma filter_nil_of_all_false {A} (p : A → bool) (l : list A) :
  (∀ x, x ∈ l → p x = false) → List.filter p l = [].
Proof.
  induction l as [|x l IH]; intros Hall; cbn; [done|].
  rewrite (Hall x) by left. apply IH. intros y Hy. apply Hall. by right.
Qed.

Lemma filter_resolutions p nodes ips :
  (∀ n res, p (EvNodeIP n res) = false) →
  List.filter p (resolutions nodes ips) = [].
Proof.
  intros Hp. apply filter_nil_of_all_false.
  intros ev (n & ip & ->)%resolutions_spec. apply Hp.
Qed.

(** ** The shape of every run of [UpdateConfiguration] *)

(** The run written out: the answers are asked at the growing history. *)
Lemma UpdateConfiguration_run pkg rt s h :
  UpdateConfiguration pkg rt s h =
  match container s with
  | None =>
      (Some (fundamental
         "unable to configure load balancer: load balancer container does not exists"),
       [])
  | Some c =>
      let listing := EvListContainers (controlPlaneFilters s) in
      match listContainers rt h (controlPlaneFilters s) with
      | (nodes, Some e) => (Some (withStack e), [listing (nodes, Some e)])
      | (nodes, None) =>
          let h1 := h ++ [listing (nodes, None)] in
          match collectBackendServers rt nodes ∅ h1 with
          | ((_, Some e), evs) => (Some e, listing (nodes, None) :: evs)
          | ((m, None), evs) =>
              let render := EvConfig (configData m) in
              match Config pkg (configData m) with
              | (doc, Some e) =>
                  (Some (withStack e),
                   listing (nodes, None) :: evs ++ [render (doc, Some e)])
              | (doc, None) =>
                  let h2 := (h1 ++ evs) ++ [render (doc, None)] in
                  let write := EvWriteFile c (ConfigPath pkg) doc in
                  match Node_WriteFile rt h2 c (ConfigPath pkg) doc with
                  | Some e =>
                      (Some (withStack e),
                       listing (nodes, None)
                       :: evs ++ [render (doc, None); write (Some e)])
                  | None =>
                      let res := Node_Kill rt (h2 ++ [write None]) c "SIGHUP" in
                      (errors_WithStack res,
                       listing (nodes, None)
                       :: evs ++ [render (doc, None); write None;
                                  EvKill c "SIGHUP" res])
                  end
              end
          end
      end
  end.
Proof.
  unfold UpdateConfiguration, bind, perform, ret.
  destruct (container s) as [c|]; [|done].
  generalize (controlPlaneFilters s); intros F.
  destruct (listContainers rt h F) as [nodes [e|]]; [done|].
  cbn -[collectBackendServers].
  destruct (collectBackendServers _ _ _ _) as [[m [e|]] evs].
  { cbn. by rewrite app_nil_r. }
  destruct (Config pkg (configData m)) as [doc [e|]]; [done|].
  cbn -[collectBackendServers].
  by destruct (Node_WriteFile _ _ _ _ _) as [e|].
Qed.

Lemma UpdateConfiguration_outcome pkg rt s h :
  update_outcome pkg s (UpdateConfiguration pkg rt s h).1
                       (UpdateConfiguration pkg rt s h).2.
Proof.
  rewrite UpdateConfiguration_run.
  destruct (container s) as [c|] eqn:Hc; [|by constructor].
  cbv zeta.
  destruct (listContainers rt h _) as [nodes [e|]].
  { by eapply update_list_failed. }
  pose proof (collectBackendServers_outcome rt nodes ∅
                (h ++ [EvListContainers (controlPlaneFilters s) (nodes, None)]))
    as Hloop.
  destruct (collectBackendServers _ _ _ _) as [[m err] evs].
  cbn [fst snd] in Hloop.
  inversion Hloop as [ips Hlen | ips n ip e m' Hlen Hn]; subst.
  2: { by eapply update_resolution_failed. }
  fold (backendSet nodes ips).
  destruct (Config pkg (configData (backendSet nodes ips))) as [doc [e|]] eqn:Hcfg.
  { by eapply update_render_failed. }
  destruct (Node_WriteFile rt _ c (ConfigPath pkg) doc) as [e|].
  { by eapply update_write_failed. }
  by eapply update_signalled.
Qed.

(** Case analysis on the membership of an event in a trace of known shape. *)
Ltac member_cases H :=
  repeat (lazymatch type of H with
          | _ ∈ [] => apply elem_of_nil in H; destruct H
          | _ ∈ _ :: _ => apply elem_of_cons in H as [H|H]
          | _ ∈ _ ++ _ => apply elem_of_app in H as [H|H]
          | _ ∈ resolutions _ _ => apply resolutions_spec in H as (? & ? & H)
          end);
  simplify_eq.

(** ** Address resolution failures *)

(** C1. If, during a run of [UpdateConfiguration], the address of some
    control plane node cannot be resolved, the run returns an error (the
    node's error, annotated with the node's name) and contains no call to
    the renderer, no file write and no signal.  In particular, on an
    instance with a container, a listed node whose address can never be
    read makes the run fail in this way. *)
Theorem UpdateConfiguration_resolution_failure_aborts pkg rt s h :
  let r := (UpdateConfiguration pkg rt s h).1 in
  let evs := (UpdateConfiguration pkg rt s h).2 in
  (∀ n ip e,
     EvNodeIP n (ip, Some e) ∈ evs →
     r = Some (withStack (withMessage e
                 ("failed to get IP for container " +:+ Node_String n)))
     ∧ List.filter is_render_write_or_signal evs = [])
  ∧ (∀ c nodes n,
       container s = Some c →
       listContainers rt h (controlPlaneFilters s) = (nodes, None) →
       n ∈ nodes →
       (∀ h', (Node_IP rt h' n).2 ≠ None) →
       r ≠ None ∧ List.filter is_render_write_or_signal evs = []).
Proof.
  split.
  - pose proof (UpdateConfiguration_outcome pkg rt s h) as Hrun.
    destruct (UpdateConfiguration pkg rt s h) as [r evs]. cbn [fst snd] in *.
    intros n ip e Hin.
    inversion Hrun; subst; clear Hrun; member_cases Hin.
    split; [done|].
    cbn. rewrite List.filter_app, filter_resolutions by done. done.
  - intros c nodes n Hc Hlist Hin Hfail.
    rewrite UpdateConfiguration_run, Hc. cbv zeta. rewrite Hlist.
    pose proof (collectBackendServers_unresolvable rt nodes ∅
                  (h ++ [EvListContainers (controlPlaneFilters s) (nodes, None)])
                  n Hin Hfail) as Herr.
    pose proof (collectBackendServers_outcome rt nodes ∅
                  (h ++ [EvListContainers (controlPlaneFilters s) (nodes, None)]))
      as Hloop.
    destruct (collectBackendServers _ _ _ _) as [[m [e|]] evs]; [|done].
    cbn [fst snd] in *. split; [done|].
    inversion Hloop; subst.
    cbn. rewrite List.filter_app, filter_resolutions by done. done.
Qed.

Lemma UpdateConfiguration_resolution_failure_aborts_witness :
  EvNodeIP Fake.cp2 ("", Some Fake.refused)
    ∈ (UpdateConfiguration Fake.pkg Fake.rt_ip_fails Fake.provisioned []).2
  ∧ (UpdateConfiguration Fake.pkg Fake.rt_ip_fails Fake.provisioned []).1
      = Some (withStack (withMessage Fake.refused
                "failed to get IP for container demo-control-plane2"))
  ∧ List.filter is_render_write_or_signal
      (UpdateConfiguration Fake.pkg Fake.rt_ip_fails Fake.provisioned []).2 = [].
Proof.
  assert (EvNodeIP Fake.cp2 ("", Some Fake.refused)
    ∈ (UpdateConfiguration Fake.pkg Fake.rt_ip_fails Fake.provisioned []).2) as Hin.
  { vm_compute. do 2 right. left. }
  split; [exact Hin|].
  exact (proj1 (UpdateConfiguration_resolution_failure_aborts
                  Fake.pkg Fake.rt_ip_fails Fake.provisioned [])
           Fake.cp2 "" Fake.refused Hin).
Defined.

(** ** Write, then signal *)

(** C2. In every run of [UpdateConfiguration]: a failed file write is
    followed by no signal and makes the run fail; a signal is only ever
    sent right after a successful write of the configuration file, and it
    is SIGHUP; and a run that succeeds ends with a successful write
    followed by a successful signal. *)
Theorem UpdateConfiguration_signal_only_after_write pkg rt s h :
  let r := (UpdateConfiguration pkg rt s h).1 in
  let evs := (UpdateConfiguration pkg rt s h).2 in
  (∀ c dest doc e, EvWriteFile c dest doc (Some e) ∈ evs →
     r = Some (withStack e) ∧ List.filter is_signal evs = [])
  ∧ (∀ c sig res, EvKill c sig res ∈ evs →
       ∃ pre doc,
         evs = pre ++ [EvWriteFile c (ConfigPath pkg) doc None; EvKill c sig res]
         ∧ sig = "SIGHUP" ∧ r = errors_WithStack res)
  ∧ (r = None →
       ∃ pre c doc,
         container s = Some c
         ∧ evs = pre ++ [EvWriteFile c (ConfigPath pkg) doc None;
                         EvKill c "SIGHUP" None]).
Proof.
  pose proof (UpdateConfiguration_outcome pkg rt s h) as Hrun.
  destruct (UpdateConfiguration pkg rt s h) as [r evs]. cbn [fst snd] in *.
  split; [|split].
  - intros c0 dest doc0 e0 Hin.
    inversion Hrun; subst; clear Hrun; member_cases Hin.
    split; [done|].
    cbn. rewrite List.filter_app, filter_resolutions by done. done.
  - intros c0 sig res0 Hin.
    inversion Hrun; subst; clear Hrun; member_cases Hin.
    eexists (_ :: resolutions nodes ips ++ [_]), doc.
    split; [|done]. cbn. by rewrite <- app_assoc.
  - intros ->.
    inversion Hrun as [| | | | |c nodes ips doc res Hc Hlen Hcfg Hres];
      subst; clear Hrun.
    destruct res; [done|].
    eexists (_ :: resolutions nodes ips ++ [_]), c, doc.
    split; [done|]. cbn. by rewrite <- app_assoc.
Qed.

Lemma UpdateConfiguration_signal_only_after_write_witness :
  EvWriteFile Fake.lb (ConfigPath Fake.pkg)
      "server demo-control-plane 10.0.0.5:6443;server demo-control-plane2 10.0.0.6:6443;"
      (Some Fake.refused)
    ∈ (UpdateConfiguration Fake.pkg Fake.rt_write_fails Fake.provisioned []).2
  ∧ (UpdateConfiguration Fake.pkg Fake.rt_write_fails Fake.provisioned []).1
      = Some (withStack Fake.refused)
  ∧ List.filter is_signal
      (UpdateConfiguration Fake.pkg Fake.rt_write_fails Fake.provisioned []).2 = [].
Proof.
  assert (EvWriteFile Fake.lb (ConfigPath Fake.pkg)
      "server demo-control-plane 10.0.0.5:6443;server demo-control-plane2 10.0.0.6:6443;"
      (Some Fake.refused)
    ∈ (UpdateConfiguration Fake.pkg Fake.rt_write_fails Fake.provisioned []).2) as Hin.
  { vm_compute. do 4 right. left. }
  split; [exact Hin|].
  exact (proj1 (UpdateConfiguration_signal_only_after_write
                  Fake.pkg Fake.rt_write_fails Fake.provisioned [])
           _ _ _ _ Hin).
Defined.

(** ** The unprovisioned instance *)

(** C5. On an instance without a container [UpdateConfiguration] returns
    the "container does not exists" error and calls nothing: no listing,
    no address lookup, no rendering, no write, no signal. *)
Theorem UpdateConfiguration_not_provisioned pkg rt nm img cr h :
  UpdateConfiguration pkg rt
    {| name := nm; image := img; container := None; creator := cr |} h
  = (Some (fundamental
       "unable to configure load balancer: load balancer container does not exists"),
     []).
Proof. reflexivity. Qed.

(** ** The backend servers and the written document *)

Lemma backendServersFrom_cons acc n nodes ip ips :
  backendServersFrom acc (n :: nodes) (ip :: ips)
  = backendServersFrom (<[Node_String n := JoinHostPort ip "6443"]> acc) nodes ips.
Proof. reflexivity. Qed.

(** A key that no node carries keeps the binding it had before the loop. *)
Lemma backendServersFrom_other acc nodes ips k :
  (∀ j n, nodes !! j = Some n → Node_String n ≠ k) →
  backendServersFrom acc nodes ips !! k = acc !! k.
Proof.
  revert acc ips. induction nodes as [|n nodes IH]; intros acc [|ip ips] Hk;
    try done.
  rewrite backendServersFrom_cons, IH.
  - apply lookup_insert_ne. by apply (Hk 0).
  - intros j n' Hj. by apply (Hk (S j)).
Qed.

(** Every binding comes from before the loop or from a node and its address. *)
Lemma backendServersFrom_lookup_Some acc nodes ips k v :
  backendServersFrom acc nodes ips !! k = Some v →
  acc !! k = Some v
  ∨ ∃ i n ip, nodes !! i = Some n ∧ ips !! i = Some ip
              ∧ k = Node_String n ∧ v = JoinHostPort ip "6443".
Proof.
  revert acc ips. induction nodes as [|n nodes IH]; intros acc [|ip ips] Hkv;
    try (by left).
  rewrite backendServersFrom_cons in Hkv.
  apply IH in Hkv as [Hacc|(i & n' & ip' & Hn & Hip & -> & ->)].
  - destruct (decide (Node_String n = k)) as [<-|Hne].
    + rewrite lookup_insert_eq in Hacc. simplify_eq.
      right. by exists 0, n, ip.
    + rewrite lookup_insert_ne in Hacc by done. by left.
  - right. by exists (S i), n', ip'.
Qed.

(** The last node of a given name decides the binding of that name. *)
Lemma backendServersFrom_lookup_last acc nodes ips i n ip :
  nodes !! i = Some n → ips !! i = Some ip →
  (∀ j n', i < j → nodes !! j = Some n' → Node_String n' ≠ Node_String n) →
  backendServersFrom acc nodes ips !! Node_String n = Some (JoinHostPort ip "6443").
Proof.
  revert acc ips i. induction nodes as [|n0 nodes IH]; intros acc [|ip0 ips] i Hn Hip Hlast;
    try done.
  rewrite backendServersFrom_cons. destruct i as [|i]; cbn in Hn, Hip.
  - simplify_eq. rewrite backendServersFrom_other.
    + apply lookup_insert_eq.
    + intros j n' Hj. apply (Hlast (S j)); [lia|done].
  - apply (IH _ _ i); [done..|].
    intros j n' Hij Hj. apply (Hlast (S j)); [lia|done].
Qed.

(** C9. After a successful [UpdateConfiguration] the run consists of the
    listing of the control plane nodes of the cluster, one successful
    address lookup per discovered node, one call of the renderer on the
    data with port 6443, the backend set built from these nodes and
    addresses and the statistics page enabled, one write of exactly the
    document the renderer returned for these data to the configuration
    path, and the signal.  The backend set binds node names to
    "address:6443": every binding comes from a discovered node and its
    address, and every discovered node's name is bound to the address of
    the last node carrying that name. *)
Theorem UpdateConfiguration_writes_rendered_config pkg rt s h evs :
  UpdateConfiguration pkg rt s h = (None, evs) →
  ∃ c nodes ips doc set,
    container s = Some c
    ∧ length ips = length nodes
    ∧ set = backendSet nodes ips
    ∧ Config pkg {| ControlPlanePort := 6443;
                    BackendServers := set;
                    EnableStats := true |} = (doc, None)
    ∧ evs = EvListContainers
              [(filterLabel, clusterLabelKey, name s);
               (filterLabel, nodeRoleLabelKey, ControlPlaneNodeRoleValue)]
              (nodes, None)
            :: zip_with (λ n ip, EvNodeIP n (ip, None)) nodes ips
            ++ [EvConfig {| ControlPlanePort := 6443;
                            BackendServers := set;
                            EnableStats := true |} (doc, None);
                EvWriteFile c (ConfigPath pkg) doc None;
                EvKill c "SIGHUP" None]
    ∧ (∀ k v, set !! k = Some v →
         ∃ i n ip, nodes !! i = Some n ∧ ips !! i = Some ip
                   ∧ k = Node_String n ∧ v = JoinHostPort ip "6443")
    ∧ (∀ i n ip, nodes !! i = Some n → ips !! i = Some ip →
         (∀ j n', i < j → nodes !! j = Some n' → Node_String n' ≠ Node_String n) →
         set !! Node_String n = Some (JoinHostPort ip "6443")).
Proof.
  intros Hrun.
  pose proof (UpdateConfiguration_outcome pkg rt s h) as Hout.
  rewrite Hrun in Hout. cbn [fst snd] in Hout.
  inversion Hout as [| | | | |c nodes ips doc res Hc Hlen Hcfg Hres]; subst.
  destruct res; [done|].
  exists c, nodes, ips, doc, (backendSet nodes ips).
  split; [done|]. split; [done|]. split; [done|].
  split; [exact Hcfg|]. split; [reflexivity|]. split.
  - intros k v Hkv.
    apply backendServersFrom_lookup_Some in Hkv as [Hempty|?]; [|done].
    by rewrite lookup_empty in Hempty.
  - intros i n ip. apply backendServersFrom_lookup_last.
Qed.

Lemma UpdateConfiguration_writes_rendered_config_witness :
  (UpdateConfiguration Fake.pkg Fake.rt Fake.provisioned []).1 = None
  ∧ ∃ doc set,
      set !! "demo-control-plane" = Some "10.0.0.5:6443"
      ∧ set !! "demo-control-plane2" = Some "10.0.0.6:6443"
      ∧ Config Fake.pkg {| ControlPlanePort := 6443;
                           BackendServers := set;
                           EnableStats := true |} = (doc, None)
      ∧ EvConfig {| ControlPlanePort := 6443;
                    BackendServers := set;
                    EnableStats := true |} (doc, None)
        ∈ (UpdateConfiguration Fake.pkg Fake.rt Fake.provisioned []).2
      ∧ EvWriteFile Fake.lb (ConfigPath Fake.pkg) doc None
        ∈ (UpdateConfiguration Fake.pkg Fake.rt Fake.provisioned []).2.
Proof.
  split; [vm_compute; reflexivity|].
  destruct (UpdateConfiguration_writes_rendered_config
              Fake.pkg Fake.rt Fake.provisioned []
              (UpdateConfiguration Fake.pkg Fake.rt Fake.provisioned []).2)
    as (c & nodes & ips & doc & set & Hc & Hlen & _ & Hcfg & Hevs & _ & Hlast).
  { vm_compute. reflexivity. }
  injection Hc as <-.
  assert (nodes = [Fake.cp1; Fake.cp2]
          ∧ ips = ["10.0.0.5"; "10.0.0.6"]) as [-> ->].
  { pose proof (f_equal (take 3) Hevs) as Hhead.
    destruct nodes as [|n1 [|n2 nodes]]; destruct ips as [|ip1 [|ip2 ips]];
      try discriminate Hlen; vm_compute in Hhead; try discriminate Hhead.
    injection Hhead as <- <- <- _ <- _ <-.
    destruct ips; [|discriminate Hlen]. split; reflexivity. }
  exists doc, set. split; [|split; [|split; [|split]]].
  - apply (Hlast 0 Fake.cp1 "10.0.0.5" eq_refl eq_refl).
    intros [|[|j]] n'; [lia| |]; by intros _ [= <-].
  - apply (Hlast 1 Fake.cp2 "10.0.0.6" eq_refl eq_refl).
    intros [|[|j]] n'; [lia|lia|]; by intros _ [=].
  - exact Hcfg.
  - rewrite Hevs. right. apply elem_of_app. right. left.
  - rewrite Hevs. right. apply elem_of_app. right. right. left.
Defined.

(** ** No control plane nodes *)

(** C10. When the listing returns no control plane node, the run goes on to
    render the configuration for the empty backend set; and if rendering,
    writing and signalling succeed, the run succeeds and consists of the
    listing, the rendering of the empty set, the write of that document
    and the signal. *)
Theorem UpdateConfiguration_without_nodes pkg rt s c h :
  container s = Some c →
  listContainers rt h (controlPlaneFilters s) = ([], None) →
  let listing := EvListContainers (controlPlaneFilters s) ([], None) in
  let render := EvConfig (configData ∅) in
  (∃ rest, (UpdateConfiguration pkg rt s h).2
           = listing :: render (Config pkg (configData ∅)) :: rest)
  ∧ (∀ doc,
       Config pkg (configData ∅) = (doc, None) →
       Node_WriteFile rt (h ++ [listing; render (doc, None)])
         c (ConfigPath pkg) doc = None →
       Node_Kill rt (h ++ [listing; render (doc, None);
                           EvWriteFile c (ConfigPath pkg) doc None])
         c "SIGHUP" = None →
       UpdateConfiguration pkg rt s h
       = (None, [listing; render (doc, None);
                 EvWriteFile c (ConfigPath pkg) doc None;
                 EvKill c "SIGHUP" None])).
Proof.
  intros Hc Hlist listing render.
  rewrite UpdateConfiguration_run, Hc. cbv zeta. rewrite Hlist.
  cbn [collectBackendServers]. unfold ret.
  destruct (Config pkg (configData ∅)) as [doc [e|]] eqn:Hcfg.
  { split; [by eexists | by intros doc' [=]]. }
  rewrite app_nil_r, <- !app_assoc. cbn [app].
  split.
  - destruct (Node_WriteFile _ _ _ _ _); by eexists.
  - intros doc' [= <-] Hwrite Hkill.
    unfold listing, render in *. by rewrite Hwrite, Hkill.
Qed.

Lemma UpdateConfiguration_without_nodes_witness :
  container Fake.provisioned = Some Fake.lb
  ∧ listContainers Fake.rt_no_nodes [] (controlPlaneFilters Fake.provisioned)
    = ([], None)
  ∧ UpdateConfiguration Fake.pkg Fake.rt_no_nodes Fake.provisioned []
    = (None,
       [EvListContainers (controlPlaneFilters Fake.provisioned) ([], None);
        EvConfig (configData ∅) ("", None);
        EvWriteFile Fake.lb (ConfigPath Fake.pkg) "" None;
        EvKill Fake.lb "SIGHUP" None]).
Proof.
  split; [reflexivity|]. split; [reflexivity|].
  apply (proj2 (UpdateConfiguration_without_nodes
                  Fake.pkg Fake.rt_no_nodes Fake.provisioned Fake.lb []
                  eq_refl eq_refl) "");
    [vm_compute; reflexivity | reflexivity | reflexivity].
Defined.

(** ** Create *)

(** An instance that has a container is left alone by [Create]. *)
Lemma Create_provisioned_noop s c h :
  container s = Some c → Create s h = ((s, None), []).
Proof. intros Hc. unfold Create. by rewrite Hc. Qed.

(** One creation request, written out. *)
Lemma Create_unprovisioned s h :
  container s = None →
  Create s h =
  let answer := creator s h (containerName s) (image s) (name s) "0.0.0.0" 0%Z in
  (({| name := name s; image := image s;
       container := answer.1; creator := creator s |},
    errors_WithStack answer.2),
   [EvCreateExternalLoadBalancerNode
      (containerName s) (image s) (name s) "0.0.0.0" 0%Z answer]).
Proof.
  intros Hc. unfold Create, bind, perform, ret. rewrite Hc.
  by destruct (creator s h _ _ _ _ _) as [node [e|]].
Qed.

(** C3, as stated, fails: when the constructor finds the load balancer of
    the cluster, the two calls of [Create] issue no creation request; when
    the creation fails, they issue two. *)
Lemma Create_twice_not_always_one_request :
  ¬ (∀ pkg rt cluster dockerCluster h,
       Cluster_Name cluster ≠ "" →
       creation_requests (ConstructCreateCreate pkg rt cluster dockerCluster h).2 = 1)
  ∧ creation_requests
      (ConstructCreateCreate Fake.pkg Fake.rt_found Fake.demo None []).2 = 0
  ∧ creation_requests
      (ConstructCreateCreate Fake.pkg Fake.rt_create_fails Fake.demo None []).2 = 2.
Proof.
  split; [|split; reflexivity].
  intros Hall.
  specialize (Hall Fake.pkg Fake.rt_found Fake.demo None []).
  assert (Cluster_Name Fake.demo ≠ "") as Hne by (by vm_compute).
  specialize (Hall Hne). vm_compute in Hall. discriminate Hall.
Qed.

(** The constructor on a non-empty name: one lookup, no creation. *)
Lemma NewLoadBalancer_run pkg rt cluster dockerCluster h :
  Cluster_Name cluster ≠ "" →
  NewLoadBalancer pkg rt cluster dockerCluster h =
  let answer := getContainer rt h (loadBalancerFilters cluster) in
  (match answer.2 with
   | Some e => (None, Some e)
   | None =>
       (Some {| name := Cluster_Name cluster;
                image := getLoadBalancerImage pkg dockerCluster;
                container := answer.1;
                creator := Manager_CreateExternalLoadBalancerNode rt |},
        None)
   end,
   [EvGetContainer (loadBalancerFilters cluster) answer]).
Proof.
  intros Hne. unfold NewLoadBalancer.
  destruct (decide (Cluster_Name cluster = "")) as [|_]; [done|].
  cbv zeta. change (AddKeyNameValue _ _ _ _) with (loadBalancerFilters cluster).
  unfold bind, perform, ret.
  by destruct (getContainer rt h _) as [found [e|]].
Qed.

(** The scenario when nothing is found and the creation succeeds. *)
Lemma ConstructCreateCreate_fresh pkg rt cluster dockerCluster h node :
  Cluster_Name cluster ≠ "" →
  getContainer rt h (loadBalancerFilters cluster) = (None, None) →
  Manager_CreateExternalLoadBalancerNode rt
    (h ++ [EvGetContainer (loadBalancerFilters cluster) (None, None)])
    (Cluster_Name cluster +:+ "-lb") (getLoadBalancerImage pkg dockerCluster)
    (Cluster_Name cluster) "0.0.0.0" 0%Z = (Some node, None) →
  ConstructCreateCreate pkg rt cluster dockerCluster h
  = ((Some ({| name := Cluster_Name cluster;
               image := getLoadBalancerImage pkg dockerCluster;
               container := Some node;
               creator := Manager_CreateExternalLoadBalancerNode rt |},
            None, None), None),
     [EvGetContainer (loadBalancerFilters cluster) (None, None);
      EvCreateExternalLoadBalancerNode
        (Cluster_Name cluster +:+ "-lb") (getLoadBalancerImage pkg dockerCluster)
        (Cluster_Name cluster) "0.0.0.0" 0%Z (Some node, None)]).
Proof.
  intros Hne Hget Hcreate.
  unfold ConstructCreateCreate, bind.
  rewrite NewLoadBalancer_run by done. cbv zeta. rewrite Hget. cbn [fst snd].
  rewrite Create_unprovisioned by done. cbv zeta.
  unfold containerName. cbn [name image container creator].
  rewrite Hcreate. cbn [fst snd errors_WithStack].
  erewrite Create_provisioned_noop by done.
  reflexivity.
Qed.

(** C3, amended.  For a non-empty cluster name, when the constructor finds
    no load balancer and the creation request of the first [Create] is
    answered with a node and no error, "construct, create, create" issues
    exactly one creation request: the first [Create] attaches the node and
    the second one returns nil without calling anything. *)
Theorem Create_twice_one_request pkg rt cluster dockerCluster h node :
  Cluster_Name cluster ≠ "" →
  getContainer rt h (loadBalancerFilters cluster) = (None, None) →
  Manager_CreateExternalLoadBalancerNode rt
    (h ++ [EvGetContainer (loadBalancerFilters cluster) (None, None)])
    (Cluster_Name cluster +:+ "-lb") (getLoadBalancerImage pkg dockerCluster)
    (Cluster_Name cluster) "0.0.0.0" 0%Z = (Some node, None) →
  ∃ s2,
    ConstructCreateCreate pkg rt cluster dockerCluster h
    = ((Some (s2, None, None), None),
       [EvGetContainer (loadBalancerFilters cluster) (None, None);
        EvCreateExternalLoadBalancerNode
          (Cluster_Name cluster +:+ "-lb") (getLoadBalancerImage pkg dockerCluster)
          (Cluster_Name cluster) "0.0.0.0" 0%Z (Some node, None)])
    ∧ container s2 = Some node
    ∧ creation_requests (ConstructCreateCreate pkg rt cluster dockerCluster h).2 = 1
    ∧ ∀ h', Create s2 h' = ((s2, None), []).
Proof.
  intros Hne Hget Hcreate.
  rewrite (ConstructCreateCreate_fresh pkg rt cluster dockerCluster h node)
    by done.
  eexists. split; [reflexivity|]. repeat split.
Qed.

Lemma Create_twice_one_request_witness :
  Cluster_Name Fake.demo ≠ ""
  ∧ ∃ s2,
      ConstructCreateCreate Fake.pkg Fake.rt Fake.demo None []
      = ((Some (s2, None, None), None),
         [EvGetContainer (loadBalancerFilters Fake.demo) (None, None);
          EvCreateExternalLoadBalancerNode
            "demo-lb" "kindest/haproxy:v1" "demo" "0.0.0.0" 0%Z (Some Fake.lb, None)])
      ∧ container s2 = Some Fake.lb
      ∧ creation_requests
          (ConstructCreateCreate Fake.pkg Fake.rt Fake.demo None []).2 = 1.
Proof.
  assert (Cluster_Name Fake.demo ≠ "") as Hne by (by vm_compute).
  split; [exact Hne|].
  destruct (Create_twice_one_request Fake.pkg Fake.rt Fake.demo None [] Fake.lb
              Hne eq_refl eq_refl) as (s2 & Hrun & Hc & Hcount & _).
  exists s2. auto.
Defined.




(** ** Delete *)

(** C4. On an instance with a container [Delete] asks the runtime to
    delete it.  If the runtime fails, [Delete] returns the runtime's error
    and the instance is unchanged, so that a later [Delete] asks for the
    deletion of the same container again; if the runtime succeeds, the
    container is dropped.  The container changes only in a run whose
    deletion request succeeded.  On an instance without a container
    [Delete] returns nil and calls nothing. *)
Theorem Delete_drops_container_after_deletion rt s h :
  (∀ c e, container s = Some c → Node_Delete rt h c = Some e →
     Delete rt s h = ((s, Some e), [EvDelete c (Some e)])
     ∧ ∀ h', (Delete rt (Delete rt s h).1.1 h').2
             = [EvDelete c (Node_Delete rt h' c)])
  ∧ (∀ c, container s = Some c → Node_Delete rt h c = None →
     Delete rt s h
     = (({| name := name s; image := image s;
            container := None; creator := creator s |}, None),
        [EvDelete c None]))
  ∧ (container (Delete rt s h).1.1 ≠ container s →
     ∃ c, container s = Some c
          ∧ Delete rt s h
            = (({| name := name s; image := image s;
                   container := None; creator := creator s |}, None),
               [EvDelete c None]))
  ∧ (container s = None → Delete rt s h = ((s, None), [])).
Proof.
  unfold Delete, bind, perform, ret.
  split; [|split; [|split]].
  - intros c e Hc Hdel. rewrite Hc, Hdel. split; [done|].
    intros h'. cbn. rewrite Hc. by destruct (Node_Delete rt h' c).
  - intros c Hc Hdel. by rewrite Hc, Hdel.
  - destruct (container s) as [c|] eqn:Hc; [|done].
    destruct (Node_Delete rt h c) as [e|]; cbn; [by rewrite Hc|].
    intros _. by exists c.
  - by intros ->.
Qed.

Lemma Delete_drops_container_after_deletion_witness :
  container Fake.provisioned = Some Fake.lb
  ∧ Node_Delete Fake.rt_delete_fails [] Fake.lb = Some Fake.refused
  ∧ Delete Fake.rt_delete_fails Fake.provisioned []
    = ((Fake.provisioned, Some Fake.refused), [EvDelete Fake.lb (Some Fake.refused)])
  ∧ (Delete Fake.rt_delete_fails
       (Delete Fake.rt_delete_fails Fake.provisioned []).1.1
       [EvDelete Fake.lb (Some Fake.refused)]).2
    = [EvDelete Fake.lb (Some Fake.refused)].
Proof.
  split; [reflexivity|]. split; [reflexivity|].
  destruct (proj1 (Delete_drops_container_after_deletion
                     Fake.rt_delete_fails Fake.provisioned [])
              Fake.lb Fake.refused eq_refl eq_refl) as [Hfirst Hretry].
  split; [exact Hfirst|].
  exact (Hretry [EvDelete Fake.lb (Some Fake.refused)]).
Defined.

(** ** IP *)

(** A stack annotation never gives back the error it annotates. *)
Lemma withStack_neq e : withStack e ≠ e.
Proof. induction e as [| |e IH|]; try done. intros [= Heq]. by apply IH. Qed.

(** C6, as stated, fails in its last clause: a failed lookup is not
    returned as it is.  [IP] returns the error under a stack annotation,
    which is another error value, for every failed lookup. *)
Lemma IP_lookup_failure_is_annotated :
  ¬ (∀ rt s c h ip e,
       container s = Some c →
       Node_IP rt h c = (ip, Some e) →
       (IP rt s h).1 = Returned ("", Some e))
  ∧ (IP rt_lookup_fails Fake.provisioned []).1
    = Returned ("", Some (withStack Fake.refused))
  ∧ (∀ rt s c h ip e,
       container s = Some c →
       Node_IP rt h c = (ip, Some e) →
       (IP rt s h).1 ≠ Returned ("", Some e)).
Proof.
  assert (∀ rt s c h ip e,
            container s = Some c →
            Node_IP rt h c = (ip, Some e) →
            (IP rt s h).1 ≠ Returned ("", Some e)) as Hnever.
  { intros rt s c h ip e Hc Hip. unfold IP, bind, perform, ret.
    rewrite Hc, Hip. cbn. intros [= Heq]. by apply (withStack_neq e). }
  split; [|split; [reflexivity|exact Hnever]].
  intros Hall.
  apply (Hnever rt_lookup_fails Fake.provisioned Fake.lb [] "" Fake.refused
           eq_refl eq_refl).
  by apply (Hall rt_lookup_fails Fake.provisioned Fake.lb [] "" Fake.refused).
Qed.

(** C6, amended.  On an instance with a container, when the address lookup
    succeeds with the empty string, [IP] returns an error that names the
    container ("<name>-lb"); [IP] never returns the empty string without
    an error.  When the lookup itself fails, [IP] returns the runtime's
    error under a stack annotation, with the same text and the same cause;
    this is not the runtime's error value itself, and it differs from the
    error for the empty address. *)
Theorem IP_empty_address_is_an_error rt s c h :
  container s = Some c →
  let unavailable :=
    fundamental ("load balancer IP cannot be empty: container "
                 +:+ containerName s
                 +:+ " does not have an associated IP address") in
  (Node_IP rt h c = ("", None) →
     IP rt s h = (Returned ("", Some unavailable), [EvNodeIP c ("", None)]))
  ∧ Error_text unavailable
    = "load balancer IP cannot be empty: container "
      +:+ (name s +:+ "-lb") +:+ " does not have an associated IP address"
  ∧ (∀ ip evs, IP rt s h = (Returned (ip, None), evs) → ip ≠ "")
  ∧ (∀ ip e, Node_IP rt h c = (ip, Some e) →
       IP rt s h = (Returned ("", Some (withStack e)), [EvNodeIP c (ip, Some e)])
       ∧ Error_text (withStack e) = Error_text e
       ∧ Cause (withStack e) = Cause e
       ∧ withStack e ≠ e
       ∧ withStack e ≠ unavailable).
Proof.
  intros Hc unavailable. unfold IP, bind, perform, ret. rewrite Hc.
  split; [|split; [|split]].
  - by intros ->.
  - reflexivity.
  - intros ip evs.
    destruct (Node_IP rt h c) as [ip' [e|]]; cbn; [done|].
    destruct (decide (ip' = "")); cbn; [done|]. congruence.
  - intros ip e ->. repeat split; try done. apply withStack_neq.
Qed.

Lemma IP_empty_address_is_an_error_witness :
  container Fake.provisioned = Some Fake.lb
  ∧ Node_IP Fake.rt_no_address [] Fake.lb = ("", None)
  ∧ IP Fake.rt_no_address Fake.provisioned []
    = (Returned ("", Some (fundamental
         "load balancer IP cannot be empty: container demo-lb does not have an associated IP address")),
       [EvNodeIP Fake.lb ("", None)]).
Proof.
  split; [reflexivity|]. split; [reflexivity|].
  exact (proj1 (IP_empty_address_is_an_error
                  Fake.rt_no_address Fake.provisioned Fake.lb [] eq_refl)
           eq_refl).
Defined.

(** C7. On an instance without a container [IP] does not return an error:
    it calls the address method on the nil container at once, which
    panics; nothing is asked of the runtime.  [UpdateConfiguration], on
    the same instance, checks for the nil container first and returns its
    error. *)
Theorem IP_not_provisioned_panics pkg rt nm img cr h :
  let s := {| name := nm; image := img; container := None; creator := cr |} in
  IP rt s h = (Panicked nil_pointer_dereference, [])
  ∧ UpdateConfiguration pkg rt s h
    = (Some (fundamental
         "unable to configure load balancer: load balancer container does not exists"),
       []).
Proof. split; reflexivity. Qed.

(** ** Concrete runs *)

Example JoinHostPort_ipv4 : JoinHostPort "10.0.0.5" "6443" = "10.0.0.5:6443".
Proof. reflexivity. Qed.

Example JoinHostPort_ipv6 : JoinHostPort "fd00::5" "6443" = "[fd00::5]:6443".
Proof. reflexivity. Qed.

Example default_image : getLoadBalancerImage Fake.pkg None = "kindest/haproxy:v1".
Proof. reflexivity. Qed.

Example override_image :
  getLoadBalancerImage Fake.pkg (Some (mkDockerCluster "example.org/lb:2"))
  = "example.org/lb:2".
Proof. reflexivity. Qed.

Example empty_cluster_name :
  NewLoadBalancer Fake.pkg Fake.rt (mkCluster "") None []
  = ((None, Some (fundamental "create load balancer: cluster name is empty")), []).
Proof. reflexivity. Qed.

(** The cluster "demo": the written document names both control plane
    nodes with port 6443, and the signal follows the write. *)
Example demo_update :
  List.filter is_render_write_or_signal
    (UpdateConfiguration Fake.pkg Fake.rt Fake.provisioned []).2
  = [EvConfig
       (configData {[ "demo-control-plane" := "10.0.0.5:6443";
                      "demo-control-plane2" := "10.0.0.6:6443" ]})
       ("server demo-control-plane 10.0.0.5:6443;server demo-control-plane2 10.0.0.6:6443;",
        None);
     EvWriteFile Fake.lb "/usr/local/etc/haproxy/haproxy.cfg"
       "server demo-control-plane 10.0.0.5:6443;server demo-control-plane2 10.0.0.6:6443;"
       None;
     EvKill Fake.lb "SIGHUP" None].
Proof. vm_compute. reflexivity. Qed.

(** Deleting fails once and is asked again for the same container. *)
Example demo_delete_retry :
  Delete Fake.rt_delete_fails Fake.provisioned []
  = ((Fake.provisioned, Some Fake.refused), [EvDelete Fake.lb (Some Fake.refused)])
  ∧ Delete Fake.rt Fake.provisioned [EvDelete Fake.lb (Some Fake.refused)]
    = ((Fake.absent, None), [EvDelete Fake.lb None]).
Proof. split; reflexivity. Qed.

(** * Further properties *)

(** ** Strings *)

Lemma string_app_cons a (s t : string) : String a s +:+ t = String a (s +:+ t).
Proof. reflexivity. Qed.

Lemma string_app_assoc (s t u : string) : (s +:+ t) +:+ u = s +:+ (t +:+ u).
Proof.
  induction s as [|a s IH]; [done|]. by rewrite !string_app_cons, IH.
Qed.

Lemma string_app_length (s t : string) :
  String.length (s +:+ t) = String.length s + String.length t.
Proof.
  induction s as [|a s IH]; [done|]. rewrite string_app_cons. cbn. by rewrite IH.
Qed.

(** Appending the same suffix to different strings gives different strings. *)
Lemma string_app_inj_r (t s1 s2 : string) : s1 +:+ t = s2 +:+ t → s1 = s2.
Proof.
  revert s2. induction s1 as [|a s1 IH]; intros [|b s2] Heq.
  - done.
  - apply (f_equal String.length) in Heq.
    rewrite !string_app_length in Heq. cbn in Heq. lia.
  - apply (f_equal String.length) in Heq.
    rewrite !string_app_length in Heq. cbn in Heq. lia.
  - rewrite !string_app_cons in Heq. injection Heq as -> Heq.
    f_equal. by apply IH.
Qed.

Lemma IndexByteString_cons a s c :
  (0 ≤ IndexByteString s c)%Z → (0 ≤ IndexByteString (String a s) c)%Z.
Proof.
  intros Hs. cbn. destruct (Ascii.eqb a c); [done|].
  destruct (Z.ltb_spec (IndexByteString s c) 0); lia.
Qed.

Lemma IndexByteString_app_l s t c :
  (0 ≤ IndexByteString s c)%Z → (0 ≤ IndexByteString (s +:+ t) c)%Z.
Proof.
  induction s as [|a s IH]; [cbn; lia|].
  rewrite string_app_cons. cbn.
  destruct (Ascii.eqb a c); [done|].
  destruct (Z.ltb_spec (IndexByteString s c) 0) as [Hlt|Hge]; [lia|].
  intros _. specialize (IH Hge).
  destruct (Z.ltb_spec (IndexByteString (s +:+ t) c) 0); lia.
Qed.

(** A bracketed host is never equal to the plain form of another host
    without a colon. *)
Lemma JoinHostPort_bracketed_plain host1 host2 port :
  (0 ≤ IndexByteString host1 (Ascii.ascii_of_nat 58))%Z →
  (IndexByteString host2 (Ascii.ascii_of_nat 58) < 0)%Z →
  "[" +:+ host1 +:+ "]:" +:+ port ≠ host2 +:+ ":" +:+ port.
Proof.
  intros H1 H2 Heq.
  assert ("[" +:+ host1 +:+ "]:" +:+ port
          = ("[" +:+ host1 +:+ "]") +:+ (":" +:+ port)) as Hassoc.
  { by rewrite !string_app_assoc. }
  rewrite Hassoc in Heq. apply string_app_inj_r in Heq. subst host2.
  pose proof (IndexByteString_cons (Ascii.ascii_of_nat 91) _ _
                (IndexByteString_app_l host1 "]" _ H1)) as Hc.
  change ("[" +:+ host1 +:+ "]") with (String (Ascii.ascii_of_nat 91) (host1 +:+ "]")) in H2.
  lia.
Qed.

(** ** [net.JoinHostPort] *)

(** X5. For a fixed port, [JoinHostPort] sends different hosts to different
    endpoints, whether or not they are bracketed. *)
Theorem JoinHostPort_inj host1 host2 port :
  host1 ≠ host2 → JoinHostPort host1 port ≠ JoinHostPort host2 port.
Proof.
  intros Hne Heq. apply Hne. revert Heq. unfold JoinHostPort.
  destruct (Z.leb_spec 0 (IndexByteString host1 (Ascii.ascii_of_nat 58))) as [H1|H1];
    destruct (Z.leb_spec 0 (IndexByteString host2 (Ascii.ascii_of_nat 58))) as [H2|H2];
    intros Heq.
  - change ("[" +:+ ?h +:+ "]:" +:+ port)
      with (String (Ascii.ascii_of_nat 91) (h +:+ "]:" +:+ port)) in Heq.
    injection Heq as Heq. by apply string_app_inj_r in Heq.
  - by apply JoinHostPort_bracketed_plain in Heq.
  - symmetry in Heq. by apply JoinHostPort_bracketed_plain in Heq.
  - by apply string_app_inj_r in Heq.
Qed.

Lemma JoinHostPort_inj_witness :
  "10.0.0.5" ≠ "fd00::5"
  ∧ JoinHostPort "10.0.0.5" "6443" ≠ JoinHostPort "fd00::5" "6443".
Proof.
  assert ("10.0.0.5" ≠ "fd00::5") as Hne by discriminate.
  split; [exact Hne|].
  exact (JoinHostPort_inj "10.0.0.5" "fd00::5" "6443" Hne).
Defined.

(** ** The image and the container name *)

Lemma default_image_nonempty (a b c : string) : a +:+ "/" +:+ b +:+ ":" +:+ c ≠ "".
Proof.
  intros Heq. apply (f_equal String.length) in Heq.
  rewrite string_app_length in Heq.
  change ("/" +:+ b +:+ ":" +:+ c)
    with (String (Ascii.ascii_of_nat 47) (b +:+ ":" +:+ c)) in Heq.
  cbn in Heq. lia.
Qed.

Lemma getLoadBalancerImage_nonempty pkg dockerCluster :
  getLoadBalancerImage pkg dockerCluster ≠ "".
Proof.
  unfold getLoadBalancerImage.
  destruct dockerCluster as [dc|]; [|apply default_image_nonempty].
  destruct (decide (Spec_LoadBalancerImage dc ≠ ""));
    [done|apply default_image_nonempty].
Qed.

(** X3. The image of the load balancer is never the empty string: a
    non-empty image of the docker cluster is taken as it is, and a nil
    docker cluster or an empty image both give the same default
    "repository/image:tag". *)
Theorem getLoadBalancerImage_default_or_override pkg dockerCluster :
  getLoadBalancerImage pkg dockerCluster ≠ ""
  ∧ (∀ dc, dockerCluster = Some dc → Spec_LoadBalancerImage dc ≠ "" →
       getLoadBalancerImage pkg dockerCluster = Spec_LoadBalancerImage dc)
  ∧ (∀ dc, dockerCluster = Some dc → Spec_LoadBalancerImage dc = "" →
       getLoadBalancerImage pkg dockerCluster = getLoadBalancerImage pkg None)
  ∧ getLoadBalancerImage pkg None
    = DefaultImageRepository pkg +:+ "/" +:+ Image pkg +:+ ":" +:+ DefaultImageTag pkg.
Proof.
  split; [apply getLoadBalancerImage_nonempty|].
  unfold getLoadBalancerImage. split; [|split].
  - intros dc -> Hne. by destruct (decide (Spec_LoadBalancerImage dc ≠ "")).
  - intros dc -> Hempty. by destruct (decide (Spec_LoadBalancerImage dc ≠ "")).
  - reflexivity.
Qed.

Lemma getLoadBalancerImage_default_or_override_witness :
  getLoadBalancerImage Fake.pkg (Some (mkDockerCluster "example.org/lb:2"))
  = "example.org/lb:2"
  ∧ getLoadBalancerImage Fake.pkg (Some (mkDockerCluster ""))
    = getLoadBalancerImage Fake.pkg None.
Proof.
  split.
  - apply (proj1 (proj2 (getLoadBalancerImage_default_or_override Fake.pkg
                           (Some (mkDockerCluster "example.org/lb:2"))))
             (mkDockerCluster "example.org/lb:2") eq_refl).
    discriminate.
  - exact (proj1 (proj2 (proj2 (getLoadBalancerImage_default_or_override Fake.pkg
                                  (Some (mkDockerCluster "")))))
             (mkDockerCluster "") eq_refl eq_refl).
Defined.

(** X4. Different cluster names give different container names, and the
    container name is never empty. *)
Theorem containerName_inj s1 s2 :
  name s1 ≠ name s2 →
  containerName s1 ≠ containerName s2
  ∧ containerName s1 ≠ "" ∧ containerName s2 ≠ "".
Proof.
  assert (∀ s, containerName s ≠ "") as Hne.
  { intros s Heq. apply (f_equal String.length) in Heq.
    unfold containerName in Heq. rewrite string_app_length in Heq.
    cbn in Heq. lia. }
  intros Hnames. split; [|by split].
  unfold containerName. intros Heq. by apply string_app_inj_r in Heq.
Qed.

Lemma containerName_inj_witness :
  containerName Fake.absent
  ≠ containerName {| name := "prod"; image := "kindest/haproxy:v1";
                     container := None; creator := Fake.half_creator |}.
Proof.
  refine (proj1 (containerName_inj Fake.absent
            {| name := "prod"; image := "kindest/haproxy:v1";
               container := None; creator := Fake.half_creator |} _)).
  discriminate.
Defined.

(** ** The constructor *)

(** X1. When [NewLoadBalancer] returns an instance it returns no error; the
    instance carries the non-empty cluster name, a non-empty image, the
    container that the one lookup of the run found (nil if none) and the
    manager as creator.  The lookup filters on the cluster name and on the
    load balancer role. *)
Theorem NewLoadBalancer_instance pkg rt cluster dockerCluster h s err evs :
  NewLoadBalancer pkg rt cluster dockerCluster h = ((Some s, err), evs) →
  err = None
  ∧ name s = Cluster_Name cluster ∧ name s ≠ ""
  ∧ image s = getLoadBalancerImage pkg dockerCluster ∧ image s ≠ ""
  ∧ creator s = Manager_CreateExternalLoadBalancerNode rt
  ∧ evs = [EvGetContainer
             [(filterLabel, clusterLabelKey, Cluster_Name cluster);
              (filterLabel, nodeRoleLabelKey, ExternalLoadBalancerNodeRoleValue)]
             (container s, None)].
Proof.
  destruct (decide (Cluster_Name cluster = "")) as [Hempty|Hne].
  { unfold NewLoadBalancer. rewrite decide_True by done. by intros [=]. }
  rewrite NewLoadBalancer_run by done. cbv zeta.
  destruct (getContainer rt h (loadBalancerFilters cluster)) as [found [e|]];
    cbn [fst snd]; intros [= <- <- <-]; cbn.
  repeat split; try done.
  apply getLoadBalancerImage_nonempty.
Qed.

Lemma NewLoadBalancer_instance_witness :
  NewLoadBalancer Fake.pkg Fake.rt_found Fake.demo None []
  = ((Some Fake.provisioned, None),
     [EvGetContainer (loadBalancerFilters Fake.demo) (Some Fake.lb, None)])
  ∧ name Fake.provisioned = "demo".
Proof.
  assert (NewLoadBalancer Fake.pkg Fake.rt_found Fake.demo None []
          = ((Some Fake.provisioned, None),
             [EvGetContainer (loadBalancerFilters Fake.demo) (Some Fake.lb, None)]))
    as Hrun by reflexivity.
  split; [exact Hrun|].
  exact (proj1 (proj2 (NewLoadBalancer_instance _ _ _ _ _ _ _ _ Hrun))).
Defined.

(** X2. When [NewLoadBalancer] returns no instance it returns an error, and
    either the cluster name is empty and nothing was called, or the lookup
    failed and its error is returned unchanged.  In no run does the
    constructor create, write, signal or delete anything. *)
Theorem NewLoadBalancer_failure pkg rt cluster dockerCluster h :
  let run := NewLoadBalancer pkg rt cluster dockerCluster h in
  List.filter is_mutation run.2 = []
  ∧ (Cluster_Name cluster = "" →
       run = ((None, Some (fundamental "create load balancer: cluster name is empty")),
              []))
  ∧ (run.1.1 = None →
       (Cluster_Name cluster = "" ∧ run.2 = [])
       ∨ ∃ found e,
           getContainer rt h (loadBalancerFilters cluster) = (found, Some e)
           ∧ run = ((None, Some e),
                    [EvGetContainer (loadBalancerFilters cluster) (found, Some e)])).
Proof.
  cbv zeta.
  destruct (decide (Cluster_Name cluster = "")) as [Hempty|Hne].
  { unfold NewLoadBalancer. rewrite decide_True by done. cbn. auto. }
  rewrite NewLoadBalancer_run by done. cbv zeta.
  destruct (getContainer rt h (loadBalancerFilters cluster)) as [found [e|]];
    cbn [fst snd].
  - split; [done|]. split; [done|]. intros _. right. by exists found, e.
  - split; [done|]. split; [done|]. by intros [=].
Qed.

Lemma NewLoadBalancer_failure_witness :
  Cluster_Name (mkCluster "") = ""
  ∧ NewLoadBalancer Fake.pkg Fake.rt (mkCluster "") None []
    = ((None, Some (fundamental "create load balancer: cluster name is empty")), []).
Proof.
  split; [reflexivity|].
  exact (proj1 (proj2 (NewLoadBalancer_failure Fake.pkg Fake.rt (mkCluster "") None []))
           eq_refl).
Defined.

(** X13. When the constructor finds the load balancer of the cluster, the
    found container is attached and the two calls of [Create] that follow
    call nothing: the run consists of the lookup alone. *)
Theorem ConstructCreateCreate_found pkg rt cluster dockerCluster h c :
  Cluster_Name cluster ≠ "" →
  getContainer rt h (loadBalancerFilters cluster) = (Some c, None) →
  ConstructCreateCreate pkg rt cluster dockerCluster h
  = ((Some ({| name := Cluster_Name cluster;
               image := getLoadBalancerImage pkg dockerCluster;
               container := Some c;
               creator := Manager_CreateExternalLoadBalancerNode rt |},
            None, None), None),
     [EvGetContainer (loadBalancerFilters cluster) (Some c, None)]).
Proof.
  intros Hne Hget. unfold ConstructCreateCreate, bind.
  rewrite NewLoadBalancer_run by done. cbv zeta. rewrite Hget. cbn [fst snd].
  by rewrite !(Create_provisioned_noop _ c).
Qed.

Lemma ConstructCreateCreate_found_witness :
  Cluster_Name Fake.demo ≠ ""
  ∧ ConstructCreateCreate Fake.pkg Fake.rt_found Fake.demo None []
    = ((Some (Fake.provisioned, None, None), None),
       [EvGetContainer (loadBalancerFilters Fake.demo) (Some Fake.lb, None)]).
Proof.
  assert (Cluster_Name Fake.demo ≠ "") as Hne by discriminate.
  split; [exact Hne|].
  exact (ConstructCreateCreate_found Fake.pkg Fake.rt_found Fake.demo None []
           Fake.lb Hne eq_refl).
Defined.

(** ** IP *)

(** X6. On an instance with a container [IP] asks for the address of that
    container and for nothing else.  It returns an address without an
    error exactly when the lookup gave a non-empty address without an
    error, and then it returns that address; whenever it returns an error,
    the address it returns is empty. *)
Theorem IP_returns_lookup rt s c h :
  container s = Some c →
  (IP rt s h).2 = [EvNodeIP c (Node_IP rt h c)]
  ∧ (∀ ip, (IP rt s h).1 = Returned (ip, None)
           ↔ ip ≠ "" ∧ Node_IP rt h c = (ip, None))
  ∧ (∀ ip e, (IP rt s h).1 = Returned (ip, Some e) → ip = "")
  ∧ (∀ msg, (IP rt s h).1 ≠ Panicked msg).
Proof.
  intros Hc. unfold IP, bind, perform, ret. rewrite Hc.
  destruct (Node_IP rt h c) as [lbIP [e|]]; cbn.
  - split; [done|]. split; [|split]; [|by intros ip e' [=]|done].
    intros ip. split; [done|]. by intros [_ [=]].
  - destruct (decide (lbIP = "")) as [->|Hne]; cbn.
    + split; [done|]. split; [|split]; [|by intros ip e' [=]|done].
      intros ip. split; [done|]. by intros [Hip [= <-]].
    + split; [done|]. split; [|split]; [|done|done].
      intros ip. split.
      * by intros [= <-].
      * by intros [_ [= <-]].
Qed.

Lemma IP_returns_lookup_witness :
  container Fake.provisioned = Some Fake.lb
  ∧ (IP Fake.rt Fake.provisioned []).1 = Returned ("10.0.0.2", None).
Proof.
  split; [reflexivity|].
  apply (proj1 (proj2 (IP_returns_lookup Fake.rt Fake.provisioned Fake.lb []
                         eq_refl))).
  split; [discriminate|reflexivity].
Defined.

(** ** Errors in a run of [UpdateConfiguration] *)

Lemma resolutions_no_error nodes ips :
  Forall (λ ev, event_error ev = None) (resolutions nodes ips).
Proof.
  apply Forall_forall. by intros ev (n & ip & ->)%resolutions_spec.
Qed.

Lemma resolved_nodes_app t1 t2 :
  resolved_nodes (t1 ++ t2) = resolved_nodes t1 ++ resolved_nodes t2.
Proof. unfold resolved_nodes. apply omap_app. Qed.

Lemma resolved_nodes_resolutions (nodes : list Node) (ips : list string) :
  (length ips ≤ length nodes)%nat →
  resolved_nodes (resolutions nodes ips) = take (length ips) nodes.
Proof.
  unfold resolved_nodes, resolutions. revert ips.
  induction nodes as [|n rest IH]; intros [|ip ips] Hlen; cbn in *;
    try done; try lia.
  f_equal. apply IH. lia.
Qed.

(** X7. [UpdateConfiguration] returns nil exactly when the instance has a
    container and no call of the run was answered with an error: no error
    of a collaborator is swallowed. *)
Theorem UpdateConfiguration_nil_iff_no_failure pkg rt s h :
  (UpdateConfiguration pkg rt s h).1 = None
  ↔ is_Some (container s)
    ∧ Forall (λ ev, event_error ev = None) (UpdateConfiguration pkg rt s h).2.
Proof.
  pose proof (UpdateConfiguration_outcome pkg rt s h) as Hrun.
  destruct (UpdateConfiguration pkg rt s h) as [r evs]. cbn [fst snd] in *.
  pose proof resolutions_no_error as Hres.
  inversion Hrun as [Hc|c nodes e Hc|c nodes ips n ip e Hc Hlen Hn
                     |c nodes ips doc e Hc Hlen Hcfg|c nodes ips doc e Hc Hlen Hcfg
                     |c nodes ips doc res Hc Hlen Hcfg]; subst; clear Hrun.
  - split; [done|]. intros [[c Hc'] _]. congruence.
  - split; [done|]. intros [_ Hall]. by inversion Hall.
  - split; [done|]. intros [_ Hall].
    apply Forall_cons in Hall as [_ Hall].
    apply Forall_app in Hall as [_ Hall]. by inversion Hall.
  - split; [done|]. intros [_ Hall].
    apply Forall_cons in Hall as [_ Hall].
    apply Forall_app in Hall as [_ Hall]. by inversion Hall.
  - split; [done|]. intros [_ Hall].
    apply Forall_cons in Hall as [_ Hall].
    apply Forall_app in Hall as [_ Hall].
    apply Forall_cons in Hall as [_ Hall]. by inversion Hall.
  - destruct res as [e|]; cbn.
    + split; [done|]. intros [_ Hall].
      apply Forall_cons in Hall as [_ Hall].
      apply Forall_app in Hall as [_ Hall].
      do 2 apply Forall_cons in Hall as [_ Hall]. by inversion Hall.
    + split; [|done]. intros _. split; [by exists c|].
      apply Forall_cons. split; [done|].
      apply Forall_app. split; [apply Hres|]. by repeat constructor.
Qed.

(** X8. When [UpdateConfiguration] fails on an instance with a container,
    the call that was answered with an error is the last call of the run
    and the only one that failed; the error returned has the cause of that
    answer, and its text ends with the text of that answer. *)
Theorem UpdateConfiguration_stops_at_first_failure pkg rt s h c err :
  container s = Some c →
  (UpdateConfiguration pkg rt s h).1 = Some err →
  ∃ before ev e prefix,
    (UpdateConfiguration pkg rt s h).2 = before ++ [ev]
    ∧ Forall (λ ev, event_error ev = None) before
    ∧ event_error ev = Some e
    ∧ Cause err = Cause e
    ∧ Error_text err = prefix +:+ Error_text e.
Proof.
  pose proof (UpdateConfiguration_outcome pkg rt s h) as Hrun.
  destruct (UpdateConfiguration pkg rt s h) as [r evs]. cbn [fst snd] in *.
  pose proof resolutions_no_error as Hres.
  intros Hc' ->.
  inversion Hrun as [Hc|c0 nodes e Hc|c0 nodes ips n ip e Hc Hlen Hn
                     |c0 nodes ips doc e Hc Hlen Hcfg|c0 nodes ips doc e Hc Hlen Hcfg
                     |c0 nodes ips doc res Hc Hlen Hcfg Hres']; subst; clear Hrun.
  - congruence.
  - by exists [], (EvListContainers (controlPlaneFilters s) (nodes, Some e)), e, "".
  - exists (EvListContainers (controlPlaneFilters s) (nodes, None)
            :: resolutions nodes ips),
           (EvNodeIP n (ip, Some e)), e,
           ("failed to get IP for container " +:+ Node_String n +:+ ": ").
    split; [done|]. split; [by constructor|]. split; [done|]. split; [done|].
    cbn. by rewrite !string_app_assoc.
  - exists (EvListContainers (controlPlaneFilters s) (nodes, None)
            :: resolutions nodes ips),
           (EvConfig (configData (backendSet nodes ips)) (doc, Some e)), e, "".
    split; [done|]. split; [by constructor|]. done.
  - exists (EvListContainers (controlPlaneFilters s) (nodes, None)
            :: resolutions nodes ips
            ++ [EvConfig (configData (backendSet nodes ips)) (doc, None)]),
           (EvWriteFile c0 (ConfigPath pkg) doc (Some e)), e, "".
    split; [cbn; by rewrite <- app_assoc|].
    split; [|done].
    constructor; [done|]. apply Forall_app. split; [apply Hres|by repeat constructor].
  - destruct res as [e|]; [|done]. cbn in Hres'. injection Hres' as <-.
    exists (EvListContainers (controlPlaneFilters s) (nodes, None)
            :: resolutions nodes ips
            ++ [EvConfig (configData (backendSet nodes ips)) (doc, None);
                EvWriteFile c0 (ConfigPath pkg) doc None]),
           (EvKill c0 "SIGHUP" (Some e)), e, "".
    split; [cbn; by rewrite <- app_assoc|].
    split; [|done].
    constructor; [done|]. apply Forall_app. split; [apply Hres|by repeat constructor].
Qed.

Lemma UpdateConfiguration_stops_at_first_failure_witness :
  container Fake.provisioned = Some Fake.lb
  ∧ (UpdateConfiguration Fake.pkg rt_kill_fails Fake.provisioned []).1
    = Some (withStack Fake.refused)
  ∧ ∃ before ev e prefix,
      (UpdateConfiguration Fake.pkg rt_kill_fails Fake.provisioned []).2
      = before ++ [ev]
      ∧ Forall (λ ev, event_error ev = None) before
      ∧ event_error ev = Some e
      ∧ Cause (withStack Fake.refused) = Cause e
      ∧ Error_text (withStack Fake.refused) = prefix +:+ Error_text e.
Proof.
  split; [reflexivity|]. split; [vm_compute; reflexivity|].
  apply (UpdateConfiguration_stops_at_first_failure
           Fake.pkg rt_kill_fails Fake.provisioned [] Fake.lb).
  - reflexivity.
  - vm_compute. reflexivity.
Defined.

(** X9. A run of [UpdateConfiguration] never looks a load balancer up,
    creates one or deletes one.  It writes only to the configuration path
    of the instance's own container and signals only that container, with
    SIGHUP; and the nodes whose addresses it asks for are the first ones of
    the listing it obtained, in the order of the listing. *)
Theorem UpdateConfiguration_touches_only_its_container pkg rt s h :
  let evs := (UpdateConfiguration pkg rt s h).2 in
  List.filter is_lifecycle_call evs = []
  ∧ (∀ n dest doc res, EvWriteFile n dest doc res ∈ evs →
       container s = Some n ∧ dest = ConfigPath pkg)
  ∧ (∀ n sig res, EvKill n sig res ∈ evs →
       container s = Some n ∧ sig = "SIGHUP")
  ∧ (resolved_nodes evs = []
     ∨ ∃ nodes rest,
         evs = EvListContainers (controlPlaneFilters s) (nodes, None) :: rest
         ∧ resolved_nodes evs `prefix_of` nodes).
Proof.
  pose proof (UpdateConfiguration_outcome pkg rt s h) as Hrun.
  destruct (UpdateConfiguration pkg rt s h) as [r evs]. cbn [fst snd] in *.
  assert (∀ (nodes : list Node) (ips : list string),
            (length ips ≤ length nodes)%nat →
            resolved_nodes (resolutions nodes ips) `prefix_of` nodes) as Hprefix.
  { intros nodes ips Hlen. rewrite resolved_nodes_resolutions by done.
    apply prefix_take. }
  inversion Hrun as [Hc|c nodes e Hc|c nodes ips n ip e Hc Hlen Hn
                     |c nodes ips doc e Hc Hlen Hcfg|c nodes ips doc e Hc Hlen Hcfg
                     |c nodes ips doc res Hc Hlen Hcfg]; subst; clear Hrun.
  - split; [done|]. split; [|split]; [by intros ???? ?%elem_of_nil
                                      |by intros ??? ?%elem_of_nil|by left].
  - split; [done|].
    split; [|split]; [intros ???? Hin; member_cases Hin
                     |intros ??? Hin; member_cases Hin|by left].
  - split; [cbn; by rewrite List.filter_app, filter_resolutions|].
    split; [|split]; [intros ???? Hin; member_cases Hin
                     |intros ??? Hin; member_cases Hin|].
    right. eexists nodes, _. split; [done|].
    change (EvListContainers ?f ?a :: ?l) with ([EvListContainers f a] ++ l).
    rewrite !resolved_nodes_app, resolved_nodes_resolutions by lia. cbn.
    rewrite <- (take_S_r nodes (length ips) n) by done. apply prefix_take.
  - split; [cbn; by rewrite List.filter_app, filter_resolutions|].
    split; [|split]; [intros ???? Hin; member_cases Hin
                     |intros ??? Hin; member_cases Hin|].
    right. eexists nodes, _. split; [done|].
    change (EvListContainers ?f ?a :: ?l) with ([EvListContainers f a] ++ l).
    rewrite !resolved_nodes_app. cbn. rewrite app_nil_r. apply Hprefix. lia.
  - split; [cbn; by rewrite List.filter_app, filter_resolutions|].
    split; [|split]; [intros ???? Hin; member_cases Hin; done
                     |intros ??? Hin; member_cases Hin|].
    right. eexists nodes, _. split; [done|].
    change (EvListContainers ?f ?a :: ?l) with ([EvListContainers f a] ++ l).
    rewrite !resolved_nodes_app. cbn. rewrite app_nil_r. apply Hprefix. lia.
  - split; [cbn; by rewrite List.filter_app, filter_resolutions|].
    split; [|split]; [intros ???? Hin; member_cases Hin; done
                     |intros ??? Hin; member_cases Hin; done|].
    right. eexists nodes, _. split; [done|].
    change (EvListContainers ?f ?a :: ?l) with ([EvListContainers f a] ++ l).
    rewrite !resolved_nodes_app. cbn. rewrite app_nil_r. apply Hprefix. lia.
Qed.

(** ** The backend set *)





(** ** The life cycle *)

(** X14. [Create] and [Delete] never change the name, the image or the
    creator of an instance; [Create] never drops or replaces a container
    that is attached, and [Delete] never attaches one. *)
Theorem Create_Delete_keep_identity rt s h :
  let created := (Create s h).1.1 in
  let deleted := (Delete rt s h).1.1 in
  (name created = name s ∧ image created = image s ∧ creator created = creator s)
  ∧ (name deleted = name s ∧ image deleted = image s ∧ creator deleted = creator s)
  ∧ (∀ c, container s = Some c → container created = Some c)
  ∧ (container deleted = None ∨ container deleted = container s).
Proof.
  cbv zeta. unfold Create, Delete, bind, perform, ret.
  destruct (container s) as [c|] eqn:Hc.
  - destruct (Node_Delete rt h c) as [e|]; cbn; rewrite ?Hc; auto 10.
  - destruct (creator s h _ _ _ _ _) as [node [e|]]; cbn; rewrite ?Hc;
      repeat split; auto; done.
Qed.

(** X11. Creating and then deleting brings an instance back to where it
    was: on an instance without a container, when the creation and the
    deletion both succeed, [Delete] after [Create] yields the original
    instance, and the deletion is asked for the node that was created. *)
Theorem Create_then_Delete rt s h h' node :
  container s = None →
  creator s h (containerName s) (image s) (name s) "0.0.0.0" 0%Z = (Some node, None) →
  Node_Delete rt h' node = None →
  Delete rt (Create s h).1.1 h' = ((s, None), [EvDelete node None]).
Proof.
  intros Hc Hcreate Hdelete.
  rewrite Create_unprovisioned by done. cbv zeta. rewrite Hcreate.
  unfold Delete, bind, perform, ret. cbn. rewrite Hdelete.
  destruct s; cbn in *. by subst.
Qed.

Lemma Create_then_Delete_witness :
  container Fake.absent = None
  ∧ Delete Fake.rt (Create Fake.absent []).1.1
      [EvCreateExternalLoadBalancerNode
         "demo-lb" "kindest/haproxy:v1" "demo" "0.0.0.0" 0%Z (Some Fake.lb, None)]
    = ((Fake.absent, None), [EvDelete Fake.lb None]).
Proof.
  split; [reflexivity|].
  exact (Create_then_Delete Fake.rt Fake.absent [] _ Fake.lb
           eq_refl eq_refl eq_refl).
Defined.

(** X12. After a deletion that succeeded, a second [Delete] calls nothing
    and returns nil, and a [Create] asks the creator again, with the same
    container name, image, cluster name, listen address and port as for
    the first creation. *)
Theorem Delete_then_Delete_or_Create rt s c h :
  container s = Some c →
  Node_Delete rt h c = None →
  let s' := (Delete rt s h).1.1 in
  (∀ h', Delete rt s' h' = ((s', None), []))
  ∧ (∀ h', (Create s' h').2
           = [EvCreateExternalLoadBalancerNode
                (name s +:+ "-lb") (image s) (name s) "0.0.0.0" 0%Z
                (creator s h' (name s +:+ "-lb") (image s) (name s) "0.0.0.0" 0%Z)]).
Proof.
  intros Hc Hdelete. cbv zeta.
  assert ((Delete rt s h).1.1
          = {| name := name s; image := image s;
               container := None; creator := creator s |}) as ->.
  { unfold Delete, bind, perform, ret. by rewrite Hc, Hdelete. }
  split; [done|].
  intros h'. by rewrite Create_unprovisioned.
Qed.

Lemma Delete_then_Delete_or_Create_witness :
  container Fake.provisioned = Some Fake.lb
  ∧ Node_Delete Fake.rt [] Fake.lb = None
  ∧ Delete Fake.rt (Delete Fake.rt Fake.provisioned []).1.1 [EvDelete Fake.lb None]
    = (((Delete Fake.rt Fake.provisioned []).1.1, None), []).
Proof.
  split; [reflexivity|]. split; [reflexivity|].
  exact (proj1 (Delete_then_Delete_or_Create Fake.rt Fake.provisioned Fake.lb []
                  eq_refl eq_refl) [EvDelete Fake.lb None]).
Defined.

(** A deletion that fails at first and succeeds when tried again: the two
    calls of [Delete] ask for the same container, and only the second one
    drops it. *)
Example Delete_retry_after_failure :
  let first := Delete rt_delete_fails_once Fake.provisioned [] in
  let second := Delete rt_delete_fails_once first.1.1 first.2 in
  first = ((Fake.provisioned, Some Fake.refused), [EvDelete Fake.lb (Some Fake.refused)])
  ∧ second = ((Fake.absent, None), [EvDelete Fake.lb None]).
Proof. split; reflexivity. Qed.
